(** * jaeger_client.span: a shallow embedding of [Span]

    The development follows [jaeger_client/span.py].  A span is a mutable
    Python object that refers to a [SpanContext] object; both live in a
    store, and the span's methods are computations in a state and exception
    monad over that store.  Collaborators that the module only calls
    (the Thrift encoder, the flag constants, the system clock) are taken as
    interfaces.  Methods run one after the other: [update_lock] serialises
    the critical sections and is not represented. *)

From Stdlib Require Import ZArith Ascii String.
From stdpp Require Import gmap strings list fin_maps.
Open Scope Z_scope.

Set Warnings "-register-all".

(** ** Python values *)

(** The fragment of Python's [Any] that the span methods inspect: the value
    of a tag is only tested for truthiness and passed to [int()].  Floats are
    left out. *)
Inductive pyval : Type :=
  | PNone
  | PBool (b : bool)
  | PInt (z : Z)
  | PStr (s : string)
  | PList (l : list pyval).

(** [bool(value)], as used by [if ... and value]. *)
Definition py_truthy (v : pyval) : bool :=
  match v with
  | PNone => false
  | PBool b => b
  | PInt z => negb (z =? 0)
  | PStr s => negb (String.eqb s "")
  | PList l => match l with [] => false | _ => true end
  end.

(** Truthiness of an [Optional[float]] / [Optional[str]] argument. *)
Definition opt_time_truthy (t : option Z) : bool :=
  match t with
  | Some z => negb (z =? 0)
  | None => false
  end.

Definition opt_str_truthy (s : option string) : bool :=
  match s with
  | Some x => negb (String.eqb x "")
  | None => false
  end.

(** *** [int(value)] *)

Inductive int_result : Type :=
  | IntOk (n : Z)
  | IntValueError
  | IntTypeError.

Module PyInt.

(** Whitespace that [int()] strips from both ends (ASCII part). *)
Definition is_space (c : ascii) : bool :=
  let n := nat_of_ascii c in
  ((9 <=? n)%nat && (n <=? 13)%nat)
  || ((28 <=? n)%nat && (n <=? 32)%nat).

Definition digit_of (c : ascii) : option Z :=
  let n := Z.of_nat (nat_of_ascii c) in
  if (48 <=? n) && (n <=? 57) then Some (n - 48) else None.

Definition is_underscore (c : ascii) : bool := Ascii.eqb c "_"%char.

Fixpoint lstrip (l : list ascii) : list ascii :=
  match l with
  | c :: r => if is_space c then lstrip r else l
  | [] => []
  end.

Definition strip (l : list ascii) : list ascii :=
  rev (lstrip (rev (lstrip l))).

(** Decimal digits, single underscores allowed between two digits.
    [after_digit] tells whether the previous character was a digit. *)
Fixpoint digits (acc : Z) (after_digit : bool) (l : list ascii) : option Z :=
  match l with
  | [] => if after_digit then Some acc else None
  | c :: r =>
      if is_underscore c then
        if after_digit then digits acc false r else None
      else
        match digit_of c with
        | Some d => digits (10 * acc + d) true r
        | None => None
        end
  end.

Definition signed (l : list ascii) : option Z :=
  match l with
  | c :: r =>
      if Ascii.eqb c "-"%char then Z.opp <$> digits 0 false r
      else if Ascii.eqb c "+"%char then digits 0 false r
      else digits 0 false l
  | [] => None
  end.

(** [int(s)] for a [str] in base ten: [None] stands for [ValueError]. *)
Definition of_string (s : string) : option Z :=
  signed (strip (list_ascii_of_string s)).

End PyInt.

(** [int(value)]: integers and booleans convert, strings are parsed
    ([ValueError] when malformed), [None] and lists raise [TypeError]. *)
Definition py_int (v : pyval) : int_result :=
  match v with
  | PNone => IntTypeError
  | PBool b => IntOk (if b then 1 else 0)
  | PInt z => IntOk z
  | PStr s =>
      match PyInt.of_string s with
      | Some n => IntOk n
      | None => IntValueError
      end
  | PList _ => IntTypeError
  end.

(** ** Collaborators *)

(** [constants.SAMPLED_FLAG] and [constants.DEBUG_FLAG]: [span.py] imports
    the two masks from [constants.py] and never looks at their values, so
    they are parameters. *)
Class FlagConstants := {
  SAMPLED_FLAG : Z;
  DEBUG_FLAG : Z
}.

(** [thrift.make_tag] and [thrift.make_log] with the Thrift record types
    they build ([ttypes.Tag], [ttypes.Log]). *)
Class Encoder := {
  Tag : Type;
  Log : Type;
  make_tag : string -> pyval -> Z -> Z -> Tag;
  make_log : Z -> list (string * pyval) -> Z -> Z -> Log
}.

(** [time.time()]: the n-th reading of the system clock.  Readings are
    floats in Python; here only their truth value is inspected. *)
Class Clock := {
  time_time : nat -> Z
}.

(** [opentracing.ext.tags.SAMPLING_PRIORITY]. *)
Definition SAMPLING_PRIORITY : string := "sampling.priority".

(** The part of [Tracer] that a span reads.  [is_debug_allowed] is the
    answer of the tracer's debug throttler for an operation name. *)
Record Tracer : Type := {
  service_name : string;
  max_tag_value_length : Z;
  max_traceback_length : Z;
  is_debug_allowed : string -> bool
}.

(** ** SpanContext *)

Abbreviation loc := positive.

(** Modelled from the spec: the class [SpanContext] of [span_context.py],
    which [span.py] imports, is the identity record of section 3: trace id,
    span id, parent id, flags and a baggage mapping from string keys to
    string values. *)
Record SpanContext : Type := {
  trace_id : Z;
  span_id : Z;
  parent_id : option Z;
  flags : Z;
  baggage : gmap string string
}.

Definition set_flags (f : Z) (c : SpanContext) : SpanContext :=
  {| trace_id := trace_id c; span_id := span_id c; parent_id := parent_id c;
     flags := f; baggage := baggage c |}.

(** Modelled from the spec: the method [SpanContext.with_baggage_item] of
    [span_context.py] returns a new context equal to the receiver except
    that the baggage mapping has [key] set to [value]; an absent value
    removes the key, and [erase_empty] is the implementer's choice of
    removing the key for an empty value too (section 4.1). *)
Definition with_baggage_item_value (erase_empty : bool)
    (c : SpanContext) (key : string) (value : option string) : SpanContext :=
  {| trace_id := trace_id c; span_id := span_id c; parent_id := parent_id c;
     flags := flags c;
     baggage :=
       match value with
       | Some v =>
           if erase_empty && String.eqb v "" then delete key (baggage c)
           else <[key:=v]> (baggage c)
       | None => delete key (baggage c)
       end |}.

Class BaggagePolicy := {
  erase_empty : bool
}.

(** ** The span and its store *)

Section Span.

Context `{FlagConstants} `{Encoder} `{Clock} `{BaggagePolicy}.

(** Modelled from the spec: [tracer.Reference], which [span.py] imports
    from [tracer.py], is a pair of a referenced context and the kind of
    relation (section 3); a span only stores the references. *)
Record Reference : Type := {
  ref_type : string;
  referenced_context : loc
}.

(** The attributes of a [Span] object.  [_context] is a reference into
    the store of contexts: several holders may share one context. *)
Record Span : Type := {
  _tracer : Tracer;
  _context : loc;
  operation_name : string;
  start_time : Z;
  end_time : option Z;
  finished : bool;
  references : option (list Reference);
  tags : list Tag;
  logs : list Log
}.

(** What the collaborators observe: [tracer.report_span(self)] with the
    span as it is at that moment, and [logger.warning(msg)]. *)
Inductive Event : Type :=
  | ReportSpan (s : Span)
  | Warning (msg : string).

Record State : Type := {
  self : Span;
  heap : gmap loc SpanContext;
  ticks : nat;
  trace : list Event
}.

(** Exceptions that leave a method.  [ValueError] is caught where it is
    raised; [DanglingReference] cannot occur in Python and marks a store
    in which the span's context is missing. *)
Inductive exn : Type :=
  | TypeError
  | DanglingReference.

Inductive result (A : Type) : Type :=
  | Return (a : A)
  | Raise (e : exn).
#[global] Arguments Return {A} a.
#[global] Arguments Raise {A} e.

Definition M (A : Type) : Type := State -> result A * State.

#[local] Instance M_ret : MRet M := fun A a st => (Return a, st).
#[local] Instance M_bind : MBind M := fun A B f m st =>
  match m st with
  | (Return a, st') => f a st'
  | (Raise e, st') => (Raise e, st')
  end.

Definition raise {A} (e : exn) : M A := fun st => (Raise e, st).
Definition get_self : M Span := fun st => (Return (self st), st).
Definition put_self (s : Span) : M unit := fun st =>
  (Return (), {| self := s; heap := heap st; ticks := ticks st;
                 trace := trace st |}).
Definition emit (e : Event) : M unit := fun st =>
  (Return (), {| self := self st; heap := heap st; ticks := ticks st;
                 trace := trace st ++ [e] |}).

(** [time.time()] *)
Definition now : M Z := fun st =>
  (Return (time_time (ticks st)),
   {| self := self st; heap := heap st; ticks := S (ticks st);
      trace := trace st |}).

(** [self.context]: the object the span currently refers to. *)
Definition context : M SpanContext := fun st =>
  match heap st !! _context (self st) with
  | Some c => (Return c, st)
  | None => (Raise DanglingReference, st)
  end.

(** [self.context.flags = f]: an assignment to an attribute of the
    context object itself, visible to every holder of the reference. *)
Definition assign_flags (f : Z) : M unit := fun st =>
  match heap st !! _context (self st) with
  | Some c =>
      (Return (),
       {| self := self st;
          heap := <[_context (self st) := set_flags f c]> (heap st);
          ticks := ticks st; trace := trace st |})
  | None => (Raise DanglingReference, st)
  end.

(** Allocation of a new context object. *)
Definition alloc (c : SpanContext) : M loc := fun st =>
  let l := fresh (dom (heap st)) in
  (Return l,
   {| self := self st; heap := <[l := c]> (heap st); ticks := ticks st;
      trace := trace st |}).

(** Modelled from the spec: the call
    [self.context.with_baggage_item(key=key, value=value)] reads the
    attached context and returns a new context object; the receiver is
    not touched (sections 3 and 4.1). *)
Definition with_baggage_item (key : string) (value : option string) : M loc :=
  c ← context;
  alloc (with_baggage_item_value erase_empty c key value).

Definition set_context (l : loc) (s : Span) : Span :=
  {| _tracer := _tracer s; _context := l;
     operation_name := operation_name s; start_time := start_time s;
     end_time := end_time s; finished := finished s;
     references := references s; tags := tags s; logs := logs s |}.

Definition set_name (n : string) (s : Span) : Span :=
  {| _tracer := _tracer s; _context := _context s;
     operation_name := n; start_time := start_time s;
     end_time := end_time s; finished := finished s;
     references := references s; tags := tags s; logs := logs s |}.

Definition set_finished (t : Z) (s : Span) : Span :=
  {| _tracer := _tracer s; _context := _context s;
     operation_name := operation_name s; start_time := start_time s;
     end_time := Some t; finished := true;
     references := references s; tags := tags s; logs := logs s |}.

Definition append_tag (t : Tag) (s : Span) : Span :=
  {| _tracer := _tracer s; _context := _context s;
     operation_name := operation_name s; start_time := start_time s;
     end_time := end_time s; finished := finished s;
     references := references s; tags := tags s ++ [t]; logs := logs s |}.

Definition append_log (l : Log) (s : Span) : Span :=
  {| _tracer := _tracer s; _context := _context s;
     operation_name := operation_name s; start_time := start_time s;
     end_time := end_time s; finished := finished s;
     references := references s; tags := tags s; logs := logs s ++ [l] |}.

(** ** Methods of [Span] *)

Definition is_sampled : M bool :=
  c ← context;
  mret (Z.land (flags c) SAMPLED_FLAG =? SAMPLED_FLAG).

Definition is_debug : M bool :=
  c ← context;
  mret (Z.land (flags c) DEBUG_FLAG =? DEBUG_FLAG).

Definition set_operation_name (name : string) : M unit :=
  s ← get_self;
  put_self (set_name name s).

Definition already_finished : string :=
  "Span has already been finished; will not be reported again.".

Definition finish (finish_time : option Z) : M unit :=
  sampled ← is_sampled;
  if negb sampled then mret ()
  else
    s ← get_self;
    if finished s then emit (Warning already_finished)
    else
      t ← (match finish_time with
           | Some t => if negb (t =? 0) then mret t else now
           | None => now
           end);
      put_self (set_finished t s);;
      s ← get_self;
      emit (ReportSpan s).

Definition _set_sampling_priority (value : pyval) : M bool :=
  debug ← is_debug;
  if (debug : bool) && py_truthy value then mret false
  else
    match py_int value with
    | IntValueError => mret false
    | IntTypeError => raise TypeError
    | IntOk value_num =>
        if value_num =? 0 then
          c ← context;
          assign_flags
            (Z.land (flags c) (Z.lnot (Z.lor SAMPLED_FLAG DEBUG_FLAG)));;
          mret false
        else
          s ← get_self;
          if is_debug_allowed (_tracer s) (operation_name s) then
            c ← context;
            assign_flags
              (Z.lor (flags c) (Z.lor SAMPLED_FLAG DEBUG_FLAG));;
            mret true
          else mret false
    end.

Definition set_tag (key : string) (value : pyval) : M unit :=
  stop ← (if String.eqb key SAMPLING_PRIORITY
          then elevated ← _set_sampling_priority value; mret (negb elevated)
          else mret false);
  if stop : bool then mret ()
  else
    sampled ← is_sampled;
    if sampled : bool then
      s ← get_self;
      put_self
        (append_tag
           (make_tag key value (max_tag_value_length (_tracer s))
              (max_traceback_length (_tracer s))) s)
    else mret ().

Definition log_kv (key_values : list (string * pyval))
    (timestamp : option Z) : M unit :=
  sampled ← is_sampled;
  if sampled : bool then
    timestamp ← (if opt_time_truthy timestamp
                 then mret (default 0 timestamp) else now);
    timestamp ← (if negb (timestamp =? 0) then mret timestamp else now);
    s ← get_self;
    let log :=
      make_log timestamp key_values (max_tag_value_length (_tracer s))
        (max_traceback_length (_tracer s)) in
    s ← get_self;
    put_self (append_log log s)
  else mret ().

Definition get_baggage_item (key : string) : M (option string) :=
  c ← context;
  mret (baggage c !! key).

Definition of_opt_str (v : option string) : pyval :=
  match v with
  | Some s => PStr s
  | None => PNone
  end.

Definition set_baggage_item (key : string) (value : option string) : M unit :=
  prev_value ← get_baggage_item key;
  new_context ← with_baggage_item key value;
  s ← get_self;
  put_self (set_context new_context s);;
  sampled ← is_sampled;
  if sampled : bool then
    let logs :=
      [("event", PStr "baggage"); ("key", PStr key);
       ("value", of_opt_str value)]
      ++ (if opt_str_truthy prev_value then [("override", PStr "true")]
          else []) in
    log_kv logs None
  else mret ().

(** [for k, v in tags.items(): self.set_tag(k, v)] *)
Fixpoint set_tags (items : list (string * pyval)) : M unit :=
  match items with
  | [] => mret ()
  | (k, v) :: rest => set_tag k v;; set_tags rest
  end.

(** [Span.__init__]: builds the span object in a store that holds the
    context [ctx], then applies the seed tags. *)
Definition __init__ (ctx : loc) (tracer : Tracer) (name : string)
    (seed : option (list (string * pyval))) (start : option Z)
    (refs : option (list Reference))
    (h : gmap loc SpanContext) (n : nat) (tr : list Event)
    : result unit * State :=
  let '(t, n') :=
    if opt_time_truthy start then (default 0 start, n)
    else (time_time n, S n) in
  let st :=
    {| self := {| _tracer := tracer; _context := ctx;
                  operation_name := name; start_time := t;
                  end_time := None; finished := false;
                  references := refs; tags := []; logs := [] |};
       heap := h; ticks := n'; trace := tr |} in
  match seed with
  | Some ((_ :: _) as items) => set_tags items st
  | _ => (Return (), st)
  end.

(** ** Sequences of calls *)

(** The public mutators, as a caller invokes them. *)
Inductive Call : Type :=
  | CallSetOperationName (name : string)
  | CallFinish (finish_time : option Z)
  | CallSetTag (key : string) (value : pyval)
  | CallLogKv (key_values : list (string * pyval)) (timestamp : option Z)
  | CallSetBaggageItem (key : string) (value : option string).

Definition call (c : Call) : M unit :=
  match c with
  | CallSetOperationName name => set_operation_name name
  | CallFinish finish_time => finish finish_time
  | CallSetTag key value => set_tag key value
  | CallLogKv key_values timestamp => log_kv key_values timestamp
  | CallSetBaggageItem key value => set_baggage_item key value
  end.

(** Calls one after the other, up to the first exception. *)
Fixpoint calls (cs : list Call) : M unit :=
  match cs with
  | [] => mret ()
  | c :: rest => call c;; calls rest
  end.

(** [finish] called once for each element of [fts]. *)
Definition finishes (fts : list (option Z)) : M unit :=
  calls (CallFinish <$> fts).

(** A [SetTag] with an ordinary key or a [LogFields]. *)
Definition plain_store_call (c : Call) : Prop :=
  match c with
  | CallSetTag key _ => key ≠ SAMPLING_PRIORITY
  | CallLogKv _ _ => True
  | _ => False
  end.

(** Number of hand-offs to [tracer.report_span] in a trace. *)
Fixpoint count_reports (tr : list Event) : nat :=
  match tr with
  | [] => 0
  | ReportSpan _ :: rest => S (count_reports rest)
  | Warning _ :: rest => count_reports rest
  end.

(** The state after the warning of a repeated [finish]. *)
Definition warned (st : State) : State :=
  {| self := self st; heap := heap st; ticks := ticks st;
     trace := trace st ++ [Warning already_finished] |}.

(** The record that [set_tag] stores for a seed item of span [s]. *)
Definition encode_seed (s : Span) (kv : string * pyval) : Tag :=
  make_tag kv.1 kv.2 (max_tag_value_length (_tracer s))
    (max_traceback_length (_tracer s)).

(** The fields of the baggage record that [set_baggage_item] logs. *)
Definition baggage_fields (key : string) (value : option string)
    (override : bool) : list (string * pyval) :=
  [("event", PStr "baggage"); ("key", PStr key);
   ("value", of_opt_str value)]
  ++ (if override then [("override", PStr "true")] else []).

(** Whether a run of [_set_sampling_priority] returned [True]. *)
Definition elevated (r : result bool) : bool :=
  match r with
  | Return b => b
  | Raise _ => false
  end.

End Span.

(** ** Readers and bookkeeping of the remaining methods *)

(** [opentracing.ext.tags.SPAN_KIND] and the two RPC kinds. *)
Definition SPAN_KIND : string := "span.kind".
Definition SPAN_KIND_RPC_CLIENT : string := "client".
Definition SPAN_KIND_RPC_SERVER : string := "server".

(** The two attributes of a [ttypes.Tag] that [is_rpc] and
    [is_rpc_client] read: [tag.key] and [tag.vStr] (absent for a tag that
    is not a string tag). *)
Class TagFields `{Encoder} := {
  tag_key : Tag -> string;
  tag_vStr : Tag -> option string
}.

Section SpanReaders.

Context `{FlagConstants} `{Encoder} `{Clock} `{BaggagePolicy} `{!TagFields}.

#[local] Existing Instances M_ret M_bind.

(** [tag.vStr == s] *)
Definition vStr_is (t : Tag) (s : string) : bool :=
  match tag_vStr t with
  | Some x => String.eqb x s
  | None => false
  end.

(** The loop of [is_rpc] over [self.tags]. *)
Fixpoint is_rpc_in (ts : list Tag) : bool :=
  match ts with
  | [] => false
  | tag :: rest =>
      if String.eqb (tag_key tag) SPAN_KIND
      then vStr_is tag SPAN_KIND_RPC_CLIENT || vStr_is tag SPAN_KIND_RPC_SERVER
      else is_rpc_in rest
  end.

Definition is_rpc : M bool :=
  s ← get_self;
  mret (is_rpc_in (tags s)).

(** The loop of [is_rpc_client] over [self.tags]. *)
Fixpoint is_rpc_client_in (ts : list Tag) : bool :=
  match ts with
  | [] => false
  | tag :: rest =>
      if String.eqb (tag_key tag) SPAN_KIND
      then vStr_is tag SPAN_KIND_RPC_CLIENT
      else is_rpc_client_in rest
  end.

Definition is_rpc_client : M bool :=
  s ← get_self;
  mret (is_rpc_client_in (tags s)).

(** The properties [trace_id], [span_id], [parent_id] and [flags] of a
    span: reads of the attached context. *)
Definition Span_trace_id : M Z := c ← context; mret (trace_id c).
Definition Span_span_id : M Z := c ← context; mret (span_id c).
Definition Span_parent_id : M (option Z) := c ← context; mret (parent_id c).
Definition Span_flags : M Z := c ← context; mret (flags c).

(** [t or time.time()] when the clock has been read [n] times: the value
    and the number of readings afterwards. *)
Definition or_now (t : option Z) (n : nat) : Z * nat :=
  if opt_time_truthy t then (default 0 t, n) else (time_time n, S n).

(** The timestamp that [log_kv] hands to the encoder, and the number of
    clock readings afterwards. *)
Definition log_time (t : option Z) (n : nat) : Z * nat :=
  let '(t1, n1) := or_now t n in
  if negb (t1 =? 0) then (t1, n1) else (time_time n1, S n1).

(** The records that the [set_tag] calls of [cs] hand to the encoder,
    in call order. *)
Definition tags_of_calls (tr : Tracer) (cs : list Call) : list Tag :=
  flat_map
    (fun c =>
       match c with
       | CallSetTag key value =>
           [make_tag key value (max_tag_value_length tr)
              (max_traceback_length tr)]
       | _ => []
       end) cs.

(** The number of [log_kv] calls in [cs]. *)
Fixpoint count_log_calls (cs : list Call) : nat :=
  match cs with
  | [] => 0
  | CallLogKv _ _ :: rest => S (count_log_calls rest)
  | _ :: rest => count_log_calls rest
  end.

(** The [set_tag] calls that [__init__] makes for its seed tags. *)
Definition seed_calls (items : list (string * pyval)) : list Call :=
  map (fun kv => CallSetTag kv.1 kv.2) items.

End SpanReaders.

(** ** A concrete instance

    Wire values of the two flags, an encoder whose records keep the
    arguments of the call, a clock, and a store with one context. *)

Module Demo.

#[export] Instance wire_flags : FlagConstants :=
  {| SAMPLED_FLAG := 1; DEBUG_FLAG := 2 |}.

#[export] Instance recorder : Encoder :=
  {| Tag := string * pyval * Z * Z;
     Log := Z * list (string * pyval) * Z * Z;
     make_tag := fun k v n m => (k, v, n, m);
     make_log := fun t kv n m => (t, kv, n, m) |}.

#[export] Instance wall_clock : Clock :=
  {| time_time := fun n => 1700000000 + Z.of_nat n |}.

#[export] Instance keep_empty : BaggagePolicy :=
  {| erase_empty := false |}.

Definition tracer (allow : bool) : Tracer :=
  {| service_name := "svc"; max_tag_value_length := 1024;
     max_traceback_length := 4096; is_debug_allowed := fun _ => allow |}.

Definition ctx (f : Z) : SpanContext :=
  {| trace_id := 7; span_id := 8; parent_id := None; flags := f;
     baggage := ∅ |}.

Definition store (f : Z) : gmap loc SpanContext := {[ 1%positive := ctx f ]}.

(** A span named "op" over a context with flags [f], with no tags and
    no logs, not finished. *)
Definition state (f : Z) (allow : bool) : State :=
  {| self := {| _tracer := tracer allow; _context := 1%positive;
                operation_name := "op"; start_time := 5;
                end_time := None; finished := false;
                references := None; tags := []; logs := [] |};
     heap := store f; ticks := 0; trace := [] |}.

(** The recorded key, and the recorded value when it is a string. *)
#[export] Instance recorder_fields : TagFields :=
  {| tag_key := fun t => t.1.1.1;
     tag_vStr := fun t =>
       match t.1.1.2 with
       | PStr s => Some s
       | _ => None
       end |}.

(** A sampled span that already holds the tags [ts]. *)
Definition tagged (ts : list (string * pyval * Z * Z)) : State :=
  {| self := {| _tracer := tracer true; _context := 1%positive;
                operation_name := "op"; start_time := 5;
                end_time := None; finished := false;
                references := None; tags := ts; logs := [] |};
     heap := store 1; ticks := 0; trace := [] |}.

End Demo.

(** ** Properties *)

Section SpanFacts.

Context `{FlagConstants} `{Encoder} `{Clock} `{BaggagePolicy}.

Implicit Types (st : State) (c : SpanContext) (v : pyval) (f : Z).

Ltac unfold_monad :=
  unfold mbind, mret, M_bind, M_ret, raise, get_self, put_self, emit in *.

(** *** Bit masks *)

Lemma land_lor_mask f a b : Z.land (Z.lor f (Z.lor a b)) a = a.
Proof.
  apply Z.bits_inj'. intros n Hn.
  rewrite Z.land_spec, !Z.lor_spec.
  destruct (Z.testbit f n), (Z.testbit a n), (Z.testbit b n); reflexivity.
Qed.

Lemma land_lnot_mask_l f a b :
  Z.land (Z.land f (Z.lnot (Z.lor a b))) a = 0.
Proof.
  apply Z.bits_inj'. intros n Hn.
  rewrite !Z.land_spec, Z.lnot_spec, Z.lor_spec, Z.bits_0 by assumption.
  destruct (Z.testbit f n), (Z.testbit a n), (Z.testbit b n); reflexivity.
Qed.

Lemma land_lnot_mask_r f a b :
  Z.land (Z.land f (Z.lnot (Z.lor a b))) b = 0.
Proof.
  apply Z.bits_inj'. intros n Hn.
  rewrite !Z.land_spec, Z.lnot_spec, Z.lor_spec, Z.bits_0 by assumption.
  destruct (Z.testbit f n), (Z.testbit a n), (Z.testbit b n); reflexivity.
Qed.

(** *** Reading the context *)

Lemma context_eq st c :
  heap st !! _context (self st) = Some c -> context st = (Return c, st).
Proof. intros Hc. unfold context. rewrite Hc. reflexivity. Qed.

Lemma is_sampled_eq st c :
  heap st !! _context (self st) = Some c ->
  is_sampled st = (Return (Z.land (flags c) SAMPLED_FLAG =? SAMPLED_FLAG), st).
Proof.
  intros Hc. unfold is_sampled. unfold_monad.
  rewrite (context_eq _ _ Hc). reflexivity.
Qed.

Lemma is_debug_eq st c :
  heap st !! _context (self st) = Some c ->
  is_debug st = (Return (Z.land (flags c) DEBUG_FLAG =? DEBUG_FLAG), st).
Proof.
  intros Hc. unfold is_debug. unfold_monad.
  rewrite (context_eq _ _ Hc). reflexivity.
Qed.

Lemma is_sampled_inv st b st' :
  is_sampled st = (Return b, st') ->
  st' = st /\
  exists c, heap st !! _context (self st) = Some c
            /\ b = (Z.land (flags c) SAMPLED_FLAG =? SAMPLED_FLAG).
Proof.
  unfold is_sampled, context. unfold_monad.
  destruct (heap st !! _context (self st)) as [c|] eqn:Hc; [|discriminate].
  intros [= <- <-]. eauto.
Qed.

Lemma is_debug_inv st b st' :
  is_debug st = (Return b, st') ->
  st' = st /\
  exists c, heap st !! _context (self st) = Some c
            /\ b = (Z.land (flags c) DEBUG_FLAG =? DEBUG_FLAG).
Proof.
  unfold is_debug, context. unfold_monad.
  destruct (heap st !! _context (self st)) as [c|] eqn:Hc; [|discriminate].
  intros [= <- <-]. eauto.
Qed.

(** *** [int()] and truthiness *)

Lemma digits_nonempty acc l n :
  PyInt.digits acc false l = Some n -> l <> [].
Proof. destruct l; [discriminate | discriminate || congruence]. Qed.

Lemma of_string_nonempty s n : PyInt.of_string s = Some n -> s <> "".
Proof. intros Hs ->. discriminate Hs. Qed.

(** A value that [int()] turns into a non-zero integer is truthy. *)
Lemma py_int_nonzero_truthy v n :
  py_int v = IntOk n -> n <> 0 -> py_truthy v = true.
Proof.
  destruct v as [|b|z|s|l]; simpl; try discriminate.
  - destruct b; intros [= <-] Hn; [reflexivity | contradiction].
  - intros [= <-] Hn. apply negb_true_iff, Z.eqb_neq, Hn.
  - destruct (PyInt.of_string s) as [m|] eqn:Hs; [|discriminate].
    intros _ _. apply of_string_nonempty in Hs.
    destruct s; [contradiction | reflexivity].
Qed.

(** *** [_set_sampling_priority] *)

Lemma assign_flags_eq st c f :
  heap st !! _context (self st) = Some c ->
  assign_flags f st =
    (Return (),
     {| self := self st;
        heap := <[_context (self st) := set_flags f c]> (heap st);
        ticks := ticks st; trace := trace st |}).
Proof. intros Hc. unfold assign_flags. rewrite Hc. reflexivity. Qed.

(** The branches of [_set_sampling_priority] on a store that holds the
    span's context. *)
Lemma set_sampling_priority_eq st c v :
  heap st !! _context (self st) = Some c ->
  _set_sampling_priority v st =
    if (Z.land (flags c) DEBUG_FLAG =? DEBUG_FLAG) && py_truthy v
    then (Return false, st)
    else
      match py_int v with
      | IntValueError => (Return false, st)
      | IntTypeError => (Raise TypeError, st)
      | IntOk n =>
          if n =? 0 then
            (Return false,
             (assign_flags
                (Z.land (flags c) (Z.lnot (Z.lor SAMPLED_FLAG DEBUG_FLAG)))
                st).2)
          else if is_debug_allowed (_tracer (self st))
                    (operation_name (self st))
          then
            (Return true,
             (assign_flags
                (Z.lor (flags c) (Z.lor SAMPLED_FLAG DEBUG_FLAG)) st).2)
          else (Return false, st)
      end.
Proof.
  intros Hc. unfold _set_sampling_priority. unfold_monad.
  rewrite (is_debug_eq _ _ Hc).
  destruct ((Z.land (flags c) DEBUG_FLAG =? DEBUG_FLAG) && py_truthy v);
    [reflexivity|].
  destruct (py_int v) as [n| |]; try reflexivity.
  destruct (n =? 0).
  - rewrite (context_eq _ _ Hc), (assign_flags_eq _ _ _ Hc). reflexivity.
  - destruct (is_debug_allowed _ _); [|reflexivity].
    rewrite (context_eq _ _ Hc), (assign_flags_eq _ _ _ Hc). reflexivity.
Qed.

Lemma set_sampling_priority_dangling st v :
  heap st !! _context (self st) = None ->
  _set_sampling_priority v st = (Raise DanglingReference, st).
Proof.
  intros Hc. unfold _set_sampling_priority, is_debug, context.
  unfold_monad. rewrite Hc. reflexivity.
Qed.

(** The elevation never touches the span object itself. *)
Lemma set_sampling_priority_self st v :
  self (_set_sampling_priority v st).2 = self st.
Proof.
  destruct (heap st !! _context (self st)) as [c|] eqn:Hc.
  - rewrite (set_sampling_priority_eq _ _ _ Hc).
    rewrite !(assign_flags_eq _ _ _ Hc).
    destruct (_ && _); [reflexivity|].
    destruct (py_int v) as [n| |]; try reflexivity.
    destruct (n =? 0); [reflexivity|].
    destruct (is_debug_allowed _ _); reflexivity.
  - rewrite (set_sampling_priority_dangling _ _ Hc). reflexivity.
Qed.

(** After a successful elevation the span is sampled. *)
Lemma set_sampling_priority_sampled st v st' :
  _set_sampling_priority v st = (Return true, st') ->
  is_sampled st' = (Return true, st').
Proof.
  destruct (heap st !! _context (self st)) as [c|] eqn:Hc.
  - rewrite (set_sampling_priority_eq _ _ _ Hc).
    rewrite !(assign_flags_eq _ _ _ Hc).
    destruct (_ && _); [discriminate|].
    destruct (py_int v) as [n| |]; try discriminate.
    destruct (n =? 0); [discriminate|].
    destruct (is_debug_allowed _ _); [|discriminate].
    intros [= <-]. cbn [snd].
    erewrite is_sampled_eq by (cbn [heap self]; apply lookup_insert_eq).
    cbn [flags set_flags]. rewrite land_lor_mask, Z.eqb_refl. reflexivity.
  - rewrite (set_sampling_priority_dangling _ _ Hc). discriminate.
Qed.

(** *** [set_tag] *)

Lemma set_tag_priority_eq st v :
  set_tag SAMPLING_PRIORITY v st =
    match _set_sampling_priority v st with
    | (Return true, st') =>
        (Return (),
         {| self :=
              append_tag
                (make_tag SAMPLING_PRIORITY v
                   (max_tag_value_length (_tracer (self st')))
                   (max_traceback_length (_tracer (self st'))))
                (self st');
            heap := heap st'; ticks := ticks st'; trace := trace st' |})
    | (Return false, st') => (Return (), st')
    | (Raise e, st') => (Raise e, st')
    end.
Proof.
  unfold set_tag. rewrite String.eqb_refl. unfold_monad.
  destruct (_set_sampling_priority v st) as [[[|]|e] st'] eqn:Hp;
    cbn [negb]; try reflexivity.
  rewrite (set_sampling_priority_sampled _ _ _ Hp). reflexivity.
Qed.

Lemma set_tag_plain_unsampled st key v :
  key <> SAMPLING_PRIORITY ->
  is_sampled st = (Return false, st) ->
  set_tag key v st = (Return (), st).
Proof.
  intros Hk Hs. unfold set_tag.
  apply String.eqb_neq in Hk. rewrite Hk. unfold_monad.
  rewrite Hs. reflexivity.
Qed.

Lemma set_tag_plain_sampled st key v :
  key <> SAMPLING_PRIORITY ->
  is_sampled st = (Return true, st) ->
  set_tag key v st =
    (Return (),
     {| self :=
          append_tag
            (make_tag key v (max_tag_value_length (_tracer (self st)))
               (max_traceback_length (_tracer (self st))))
            (self st);
        heap := heap st; ticks := ticks st; trace := trace st |}).
Proof.
  intros Hk Hs. unfold set_tag.
  apply String.eqb_neq in Hk. rewrite Hk. unfold_monad.
  rewrite Hs. reflexivity.
Qed.

(** *** [log_kv] *)

Lemma log_kv_unsampled st kv ts :
  is_sampled st = (Return false, st) ->
  log_kv kv ts st = (Return (), st).
Proof. intros Hs. unfold log_kv. unfold_monad. rewrite Hs. reflexivity. Qed.

(** *** [finish] *)

Lemma finish_finished st ft :
  is_sampled st = (Return true, st) ->
  finished (self st) = true ->
  finish ft st = (Return (), warned st).
Proof.
  intros Hs Hf. unfold finish. unfold_monad.
  rewrite Hs. cbn [negb]. rewrite Hf. reflexivity.
Qed.

Lemma count_reports_app (tr1 tr2 : list Event) :
  count_reports (tr1 ++ tr2) = (count_reports tr1 + count_reports tr2)%nat.
Proof.
  induction tr1 as [|[s|m] tr1 IH]; cbn [app count_reports];
    rewrite ?IH; reflexivity.
Qed.

(** The three ways in which [finish] returns. *)
Lemma finish_cases st ft c :
  heap st !! _context (self st) = Some c ->
  exists st',
    finish ft st = (Return (), st')
    /\ heap st' = heap st
    /\ _context (self st') = _context (self st)
    /\ ((is_sampled st = (Return false, st) /\ st' = st)
        \/ (is_sampled st = (Return true, st)
            /\ finished (self st) = true /\ st' = warned st)
        \/ (is_sampled st = (Return true, st)
            /\ finished (self st) = false
            /\ finished (self st') = true
            /\ trace st' = trace st ++ [ReportSpan (self st')])).
Proof.
  intros Hc. pose proof (is_sampled_eq _ _ Hc) as Hs.
  unfold finish. unfold_monad. rewrite Hs.
  destruct (Z.land (flags c) SAMPLED_FLAG =? SAMPLED_FLAG); cbn [negb].
  - destruct (finished (self st)) eqn:Hf.
    + eexists. split; [reflexivity|]. cbn. auto 10.
    + destruct ft as [t|]; [destruct (t =? 0)|];
        cbn; unfold now; cbn;
        (eexists; split; [reflexivity|]; cbn; auto 10).
  - eexists. split; [reflexivity|]. auto 10.
Qed.

(** Once a sampled span is finished, further [finish] calls only warn. *)
Lemma finishes_after_finished fts : forall st,
  is_sampled st = (Return true, st) ->
  finished (self st) = true ->
  exists st',
    finishes fts st = (Return (), st')
    /\ self st' = self st /\ heap st' = heap st
    /\ count_reports (trace st') = count_reports (trace st).
Proof.
  induction fts as [|ft fts IH]; intros st Hs Hf.
  - exists st. repeat split; reflexivity.
  - unfold finishes. cbn [fmap list_fmap calls call]. unfold_monad.
    rewrite (finish_finished _ _ Hs Hf).
    destruct (IH (warned st)) as (st' & Hrun & Hself & Hheap & Hcount).
    + apply is_sampled_inv in Hs as (_ & c & Hc & Hb).
      rewrite (is_sampled_eq (warned st) c) by exact Hc.
      rewrite <- Hb. reflexivity.
    + exact Hf.
    + exists st'. split; [exact Hrun|].
      rewrite Hself, Hheap, Hcount. repeat split.
      unfold warned. cbn [trace]. rewrite count_reports_app. cbn. lia.
Qed.

(** A [finish] that reported leaves a sampled, finished span. *)
Lemma finish_reported st ft st' :
  is_Some (heap st !! _context (self st)) ->
  finish ft st = (Return (), st') ->
  count_reports (trace st') = S (count_reports (trace st)) ->
  is_sampled st' = (Return true, st') /\ finished (self st') = true.
Proof.
  intros [c Hc] Hrun Hcount.
  destruct (finish_cases st ft c Hc)
    as (st1 & Hrun1 & Hheap & Hctx & Hcase).
  rewrite Hrun in Hrun1. injection Hrun1 as <-.
  destruct Hcase as [(_ & ->) | [(_ & _ & ->) | (Hs & _ & Hf & _)]].
  - lia.
  - unfold warned in Hcount. cbn [trace] in Hcount.
    rewrite count_reports_app in Hcount. cbn in Hcount. lia.
  - split; [|exact Hf].
    apply is_sampled_inv in Hs as (_ & c' & Hc' & Hb).
    rewrite (is_sampled_eq st' c') by (rewrite Hheap, Hctx; exact Hc').
    rewrite <- Hb. reflexivity.
Qed.

Lemma finishes_report_bound fts : forall st,
  is_Some (heap st !! _context (self st)) ->
  exists st',
    finishes fts st = (Return (), st')
    /\ (count_reports (trace st') <= S (count_reports (trace st)))%nat.
Proof.
  induction fts as [|ft fts IH]; intros st [c Hc].
  - exists st. split; [reflexivity | lia].
  - destruct (finish_cases st ft c Hc)
      as (st1 & Hrun1 & Hheap & Hctx & Hcase).
    assert (Hstep : forall st',
               finishes fts st1 = (Return (), st') ->
               finishes (ft :: fts) st = (Return (), st')).
    { intros st' Hrest. unfold finishes in *.
      cbn [fmap list_fmap calls call]. unfold_monad.
      rewrite Hrun1. exact Hrest. }
    destruct Hcase as [(_ & ->) | [(Hs & Hf & ->) | (Hs & _ & Hf & Htr)]].
    + destruct (IH st) as (st' & Hrest & Hle); [eauto|].
      exists st'. split; [apply Hstep, Hrest | exact Hle].
    + destruct (IH (warned st)) as (st' & Hrest & Hle); [cbn; eauto|].
      exists st'. split; [apply Hstep, Hrest|].
      unfold warned in Hle. cbn [trace] in Hle.
      rewrite count_reports_app in Hle. cbn in Hle. lia.
    + assert (Hs1 : is_sampled st1 = (Return true, st1)).
      { apply is_sampled_inv in Hs as (_ & c' & Hc' & Hb).
        rewrite (is_sampled_eq st1 c') by (rewrite Hheap, Hctx; exact Hc').
        rewrite <- Hb. reflexivity. }
      destruct (finishes_after_finished fts st1 Hs1 Hf)
        as (st' & Hrest & _ & _ & Hcount).
      exists st'. split; [apply Hstep, Hrest|].
      rewrite Hcount, Htr, count_reports_app. cbn. lia.
Qed.

(** *** The claims *)

(** C1 (as amended): [set_tag] with the reserved sampling-priority key
    appends nothing when the elevation does not report "elevated" (or
    raises), and appends exactly one record, the encoder's tag for the
    reserved key and the given value, when it reports "elevated". *)
Theorem set_tag_priority_tags st v :
  tags (self (set_tag SAMPLING_PRIORITY v st).2) =
    tags (self st) ++
    (if elevated (_set_sampling_priority v st).1
     then [make_tag SAMPLING_PRIORITY v
             (max_tag_value_length (_tracer (self st)))
             (max_traceback_length (_tracer (self st)))]
     else []).
Proof.
  rewrite set_tag_priority_eq.
  pose proof (set_sampling_priority_self st v) as Hself.
  destruct (_set_sampling_priority v st) as [[[|]|e] st'];
    cbn [fst snd elevated self append_tag tags] in *; rewrite Hself;
    [reflexivity | |]; rewrite app_nil_r; reflexivity.
Qed.

(** C2: in every sequence of [finish] calls on a span, all calls return
    without error and [report_span] is invoked at most once; a call that
    comes after one that reported only emits the warning and leaves the
    span (finished flag and end time included) as it was. *)
Theorem finish_reports_at_most_once st fts :
  is_Some (heap st !! _context (self st)) ->
  exists st',
    finishes fts st = (Return (), st')
    /\ (count_reports (trace st') <= S (count_reports (trace st)))%nat
    /\ forall pre ft post st0 st1,
         fts = pre ++ ft :: post ->
         finishes pre st = (Return (), st0) ->
         finish ft st0 = (Return (), st1) ->
         count_reports (trace st1) = S (count_reports (trace st0)) ->
         forall mid ft' rest st2,
           post = mid ++ ft' :: rest ->
           finishes mid st1 = (Return (), st2) ->
           finish ft' st2 = (Return (), warned st2)
           /\ self st2 = self st1.
Proof.
  intros Hwf.
  destruct (finishes_report_bound fts st Hwf) as (st' & Hrun & Hle).
  exists st'. split; [exact Hrun|]. split; [exact Hle|].
  intros pre ft post st0 st1 _ Hpre Hfin Hrep mid ft' rest st2 _ Hmid.
  assert (Hwf0 : is_Some (heap st0 !! _context (self st0))).
  { destruct (finishes_report_bound pre st Hwf) as (st0' & Hpre' & _).
    rewrite Hpre in Hpre'. injection Hpre' as <-.
    clear -Hwf Hpre. revert st Hwf Hpre.
    induction pre as [|p pre IH]; intros st [c Hc] Hpre.
    - injection Hpre as <-. eauto.
    - destruct (finish_cases st p c Hc) as (sa & Hra & Hha & Hca & _).
      unfold finishes in Hpre. cbn [fmap list_fmap calls call] in Hpre.
      unfold mbind, M_bind in Hpre. rewrite Hra in Hpre.
      apply (IH sa); [rewrite Hha, Hca; eauto | exact Hpre]. }
  destruct (finish_reported st0 ft st1 Hwf0 Hfin Hrep) as [Hs1 Hf1].
  destruct (finishes_after_finished mid st1 Hs1 Hf1)
    as (st2' & Hmid' & Hself & Hheap & _).
  rewrite Hmid in Hmid'. injection Hmid' as <-.
  split; [|exact Hself].
  apply finish_finished; [|rewrite Hself; exact Hf1].
  apply is_sampled_inv in Hs1 as (_ & c & Hc & Hb).
  rewrite (is_sampled_eq st2 c) by (rewrite Hheap, Hself; exact Hc).
  rewrite <- Hb. reflexivity.
Qed.

Lemma calls_plain_unsampled cs : forall st,
  is_sampled st = (Return false, st) ->
  Forall plain_store_call cs ->
  calls cs st = (Return (), st).
Proof.
  induction cs as [|c cs IH]; intros st Hs Hcs; [reflexivity|].
  inversion Hcs as [|? ? Hc Hrest]; subst.
  cbn [calls]. unfold_monad.
  destruct c as [name|ft|key value|kv ts|key value];
    cbn [plain_store_call] in Hc; try contradiction; cbn [call].
  - rewrite (set_tag_plain_unsampled _ _ _ Hc Hs). apply IH; assumption.
  - rewrite (log_kv_unsampled _ _ _ Hs). apply IH; assumption.
Qed.

(** C6: on a span whose SAMPLED flag is not set, any sequence of
    [set_tag] calls with ordinary keys and [log_kv] calls returns without
    error and leaves the tag and log sequences empty. *)
Theorem unsampled_span_stores_nothing st cs :
  is_sampled st = (Return false, st) ->
  tags (self st) = [] ->
  logs (self st) = [] ->
  Forall plain_store_call cs ->
  exists st',
    calls cs st = (Return (), st')
    /\ tags (self st') = [] /\ logs (self st') = [].
Proof.
  intros Hs Ht Hl Hcs. exists st.
  rewrite (calls_plain_unsampled cs st Hs Hcs). auto.
Qed.

(** C7: [finish] on a span whose SAMPLED flag is not set returns at once
    and changes nothing: no report, no warning, and the finished flag,
    end time, tags, logs and operation name are as before. *)
Theorem finish_unsampled_is_noop st ft :
  is_sampled st = (Return false, st) ->
  finish ft st = (Return (), st).
Proof. intros Hs. unfold finish. unfold_monad. rewrite Hs. reflexivity. Qed.

(** C10: on a span whose DEBUG flag is set, [set_tag] with the reserved
    sampling-priority key and a value that [int()] turns into a non-zero
    integer returns without error and changes nothing, the flags of the
    context included. *)
Theorem priority_on_debug_span_is_refused st v n :
  is_debug st = (Return true, st) ->
  py_int v = IntOk n ->
  n <> 0 ->
  set_tag SAMPLING_PRIORITY v st = (Return (), st).
Proof.
  intros Hd Hv Hn. rewrite set_tag_priority_eq.
  apply is_debug_inv in Hd as (_ & c & Hc & Hb).
  rewrite (set_sampling_priority_eq _ _ _ Hc), <- Hb.
  rewrite (py_int_nonzero_truthy _ _ Hv Hn). reflexivity.
Qed.

(** The same refusal for every truthy value, parsable or not. *)
Lemma truthy_priority_on_debug_span st v :
  is_debug st = (Return true, st) ->
  py_truthy v = true ->
  set_tag SAMPLING_PRIORITY v st = (Return (), st).
Proof.
  intros Hd Hv. rewrite set_tag_priority_eq.
  apply is_debug_inv in Hd as (_ & c & Hc & Hb).
  rewrite (set_sampling_priority_eq _ _ _ Hc), <- Hb, Hv. reflexivity.
Qed.

(** A string that [int()] rejects is absorbed: nothing changes. *)
Lemma malformed_string_priority st c s :
  heap st !! _context (self st) = Some c ->
  PyInt.of_string s = None ->
  set_tag SAMPLING_PRIORITY (PStr s) st = (Return (), st).
Proof.
  intros Hc Hs. rewrite set_tag_priority_eq.
  rewrite (set_sampling_priority_eq _ _ _ Hc).
  cbn [py_int]. rewrite Hs.
  destruct (_ && _); reflexivity.
Qed.

(** A value on which [int()] raises [TypeError] escapes the handler,
    unless the debug guard returns first. *)
Lemma type_error_priority st c v :
  heap st !! _context (self st) = Some c ->
  py_int v = IntTypeError ->
  (Z.land (flags c) DEBUG_FLAG =? DEBUG_FLAG) && py_truthy v = false ->
  set_tag SAMPLING_PRIORITY v st = (Raise TypeError, st).
Proof.
  intros Hc Hv Hg. rewrite set_tag_priority_eq.
  rewrite (set_sampling_priority_eq _ _ _ Hc), Hg, Hv. reflexivity.
Qed.

(** Priority zero clears both bits when the debug guard does not fire:
    the span is not in debug mode, or the value is falsy. *)
Lemma priority_zero_clears st c v :
  heap st !! _context (self st) = Some c ->
  py_int v = IntOk 0 ->
  (Z.land (flags c) DEBUG_FLAG =? DEBUG_FLAG) && py_truthy v = false ->
  exists st',
    set_tag SAMPLING_PRIORITY v st = (Return (), st')
    /\ self st' = self st
    /\ (exists c',
          heap st' !! _context (self st') = Some c'
          /\ Z.land (flags c') SAMPLED_FLAG = 0
          /\ Z.land (flags c') DEBUG_FLAG = 0)
    /\ (SAMPLED_FLAG <> 0 -> is_sampled st' = (Return false, st')).
Proof.
  intros Hc Hv Hg. rewrite set_tag_priority_eq.
  rewrite (set_sampling_priority_eq _ _ _ Hc), Hg, Hv.
  cbn [Z.eqb]. rewrite (assign_flags_eq _ _ _ Hc). cbn [snd].
  eexists. split; [reflexivity|]. cbn [self heap].
  split; [reflexivity|].
  assert (Hl : <[_context (self st) :=
                   set_flags
                     (Z.land (flags c)
                        (Z.lnot (Z.lor SAMPLED_FLAG DEBUG_FLAG))) c]>
                 (heap st) !! _context (self st)
               = Some (set_flags
                         (Z.land (flags c)
                            (Z.lnot (Z.lor SAMPLED_FLAG DEBUG_FLAG))) c))
    by apply lookup_insert_eq.
  split.
  - eexists. split; [exact Hl|]. cbn [flags set_flags].
    split; [apply land_lnot_mask_l | apply land_lnot_mask_r].
  - intros HS. erewrite is_sampled_eq by (cbn [heap self]; exact Hl).
    cbn [flags set_flags]. rewrite land_lnot_mask_l.
    destruct (0 =? SAMPLED_FLAG) eqn:E; [|reflexivity].
    apply Z.eqb_eq in E. congruence.
Qed.

(** *** Seed tags *)

Lemma set_tags_sampled items : forall st,
  is_sampled st = (Return true, st) ->
  Forall (fun kv => kv.1 <> SAMPLING_PRIORITY) items ->
  exists st',
    set_tags items st = (Return (), st')
    /\ tags (self st') = tags (self st) ++ map (encode_seed (self st)) items
    /\ logs (self st') = logs (self st)
    /\ heap st' = heap st.
Proof.
  induction items as [|[k v] items IH]; intros st Hs Hk.
  - exists st. cbn. rewrite app_nil_r. auto.
  - inversion Hk as [|? ? Hk1 Hk2]; subst. cbn [fst] in Hk1.
    cbn [set_tags]. unfold_monad.
    rewrite (set_tag_plain_sampled _ _ _ Hk1 Hs).
    match goal with |- context [set_tags items ?s1] => set (st1 := s1) end.
    destruct (IH st1) as (st' & Hrun & Htags & Hlogs & Hheap).
    + apply is_sampled_inv in Hs as (_ & c & Hc & Hb).
      rewrite (is_sampled_eq st1 c) by exact Hc. rewrite <- Hb. reflexivity.
    + exact Hk2.
    + exists st'. split; [exact Hrun|].
      rewrite Htags, Hlogs, Hheap. subst st1.
      cbn [self append_tag tags logs heap map]. rewrite <- app_assoc.
      auto.
Qed.

(** C9 (as amended): constructing a span over a context whose SAMPLED
    flag is set, with the seed tags [{"a": 1, "b": "x"}], yields a tag
    sequence of exactly two records: the encoder's tags for ("a", 1) and
    ("b", "x"), in insertion order. *)
Theorem init_seed_tags_on_sampled_context
    (ctx : loc) (tracer : Tracer) (name : string) (start : option Z)
    (refs : option (list Reference)) (h : gmap loc SpanContext)
    (n : nat) (tr : list Event) c :
  h !! ctx = Some c ->
  Z.land (flags c) SAMPLED_FLAG = SAMPLED_FLAG ->
  exists st',
    __init__ ctx tracer name (Some [("a", PInt 1); ("b", PStr "x")])
      start refs h n tr = (Return (), st')
    /\ tags (self st') =
         [make_tag "a" (PInt 1) (max_tag_value_length tracer)
            (max_traceback_length tracer);
          make_tag "b" (PStr "x") (max_tag_value_length tracer)
            (max_traceback_length tracer)].
Proof.
  intros Hc Hs. unfold __init__.
  destruct (if opt_time_truthy start then (default 0 start, n)
            else (time_time n, S n)) as [t n'].
  match goal with |- context [set_tags _ ?s0] => set (st0 := s0) end.
  destruct (set_tags_sampled [("a", PInt 1); ("b", PStr "x")] st0)
    as (st' & Hrun & Htags & _).
  - rewrite (is_sampled_eq st0 c) by exact Hc.
    rewrite Hs, Z.eqb_refl. reflexivity.
  - repeat constructor; cbn; discriminate.
  - exists st'. split; [exact Hrun|]. rewrite Htags. reflexivity.
Qed.

(** *** [log_kv] and [set_baggage_item] *)

Lemma log_kv_sampled st kv ts :
  is_sampled st = (Return true, st) ->
  exists t n',
    log_kv kv ts st =
      (Return (),
       {| self :=
            append_log
              (make_log t kv (max_tag_value_length (_tracer (self st)))
                 (max_traceback_length (_tracer (self st))))
              (self st);
          heap := heap st; ticks := n'; trace := trace st |}).
Proof.
  intros Hs. unfold log_kv. unfold_monad. rewrite Hs.
  destruct (opt_time_truthy ts); unfold now; cbn [ticks self];
    match goal with
    | |- context [negb (?t =? 0)] => destruct (negb (t =? 0))
    end; cbn [ticks self heap trace]; eauto.
Qed.

Lemma log_kv_heap st kv ts : heap (log_kv kv ts st).2 = heap st.
Proof.
  destruct (is_sampled st) as [[[|]|e] st1] eqn:Hs.
  - apply is_sampled_inv in Hs as Hinv. destruct Hinv as [-> _].
    destruct (log_kv_sampled st kv ts Hs) as (t & n' & ->). reflexivity.
  - apply is_sampled_inv in Hs as Hinv. destruct Hinv as [-> _].
    rewrite (log_kv_unsampled _ _ _ Hs). reflexivity.
  - unfold log_kv. unfold_monad. rewrite Hs.
    unfold is_sampled, context in Hs. unfold_monad.
    destruct (heap st !! _context (self st)); [discriminate|].
    injection Hs as _ <-. reflexivity.
Qed.

(** [set_baggage_item] on a store that holds the span's context: a new
    context is allocated and attached, then the change is logged when
    the span is sampled. *)
Lemma set_baggage_item_eq st c key value :
  heap st !! _context (self st) = Some c ->
  set_baggage_item key value st =
    let l := fresh (dom (heap st)) in
    let st1 :=
      {| self := set_context l (self st);
         heap := <[l := with_baggage_item_value erase_empty c key value]>
                   (heap st);
         ticks := ticks st; trace := trace st |} in
    if Z.land (flags c) SAMPLED_FLAG =? SAMPLED_FLAG
    then log_kv (baggage_fields key value
                   (opt_str_truthy (baggage c !! key))) None st1
    else (Return (), st1).
Proof.
  intros Hc.
  unfold set_baggage_item, get_baggage_item, with_baggage_item, alloc.
  unfold_monad. rewrite (context_eq _ _ Hc). cbn [self heap].
  rewrite (context_eq _ _ Hc). cbn [self heap ticks trace].
  match goal with |- context [is_sampled ?s1] => set (st1 := s1) end.
  rewrite (is_sampled_eq st1 (with_baggage_item_value erase_empty c key value))
    by (subst st1; cbn [self heap set_context _context];
        apply lookup_insert_eq).
  cbn [flags with_baggage_item_value]. unfold baggage_fields.
  destruct (Z.land (flags c) SAMPLED_FLAG =? SAMPLED_FLAG); reflexivity.
Qed.

Lemma set_baggage_item_dangling st key value :
  heap st !! _context (self st) = None ->
  set_baggage_item key value st = (Raise DanglingReference, st).
Proof.
  intros Hc. unfold set_baggage_item, get_baggage_item, context.
  unfold_monad. rewrite Hc. reflexivity.
Qed.

Lemma fresh_loc_unused (h : gmap loc SpanContext) : h !! fresh (dom h) = None.
Proof. apply not_elem_of_dom, is_fresh. Qed.

Lemma with_baggage_item_value_lookup c key (v : string) :
  v <> "" ->
  baggage (with_baggage_item_value erase_empty c key (Some v)) !! key
  = Some v.
Proof.
  intros Hv. cbn [baggage with_baggage_item_value].
  apply String.eqb_neq in Hv. rewrite Hv, andb_false_r.
  apply lookup_insert_eq.
Qed.

Lemma opt_str_truthy_some (v : string) : v <> "" -> opt_str_truthy (Some v) = true.
Proof.
  intros Hv. cbn [opt_str_truthy].
  apply String.eqb_neq in Hv. rewrite Hv. reflexivity.
Qed.

(** What one [set_baggage_item] does to the span and the store. *)
Lemma set_baggage_item_spec st c key value :
  heap st !! _context (self st) = Some c ->
  exists st',
    set_baggage_item key value st = (Return (), st')
    /\ _context (self st') = fresh (dom (heap st))
    /\ heap st' =
         <[fresh (dom (heap st)) :=
             with_baggage_item_value erase_empty c key value]> (heap st)
    /\ _tracer (self st') = _tracer (self st)
    /\ tags (self st') = tags (self st)
    /\ (if Z.land (flags c) SAMPLED_FLAG =? SAMPLED_FLAG
        then exists t,
               logs (self st') =
                 logs (self st) ++
                 [make_log t
                    (baggage_fields key value
                       (opt_str_truthy (baggage c !! key)))
                    (max_tag_value_length (_tracer (self st)))
                    (max_traceback_length (_tracer (self st)))]
        else logs (self st') = logs (self st)).
Proof.
  intros Hc. rewrite (set_baggage_item_eq _ _ _ _ Hc). cbv zeta.
  match goal with |- context [(Return (), ?s1)] => set (st1 := s1) end.
  destruct (Z.land (flags c) SAMPLED_FLAG =? SAMPLED_FLAG) eqn:Hs.
  - destruct (log_kv_sampled st1
                (baggage_fields key value
                   (opt_str_truthy (baggage c !! key))) None)
      as (t & n' & Hlog).
    + rewrite (is_sampled_eq st1
                 (with_baggage_item_value erase_empty c key value))
        by (subst st1; cbn [self heap set_context _context];
            apply lookup_insert_eq).
      cbn [flags with_baggage_item_value]. rewrite Hs. reflexivity.
    + rewrite Hlog. eexists. split; [reflexivity|].
      subst st1. cbn. eauto 10.
  - exists st1. subst st1. cbn. auto 10.
Qed.

(** C8: after [set_baggage_item(k, v1)] and then [set_baggage_item(k, v2)]
    the baggage item of [k] is [v2]; each call attaches a context object
    that is new and different from the one attached before, whose
    content stays as it was; and on a sampled span each call appends
    one log record with the fields event = "baggage", key and value,
    the second one with the field override = "true" in addition. *)
Theorem set_baggage_item_twice st key (v1 v2 : string) c0 :
  heap st !! _context (self st) = Some c0 ->
  v1 <> "" ->
  v2 <> "" ->
  exists st1 st2,
    set_baggage_item key (Some v1) st = (Return (), st1)
    /\ set_baggage_item key (Some v2) st1 = (Return (), st2)
    /\ get_baggage_item key st2 = (Return (Some v2), st2)
    /\ heap st !! _context (self st1) = None
    /\ heap st1 !! _context (self st2) = None
    /\ _context (self st1) <> _context (self st)
    /\ _context (self st2) <> _context (self st1)
    /\ heap st1 !! _context (self st) = Some c0
    /\ heap st2 !! _context (self st) = Some c0
    /\ heap st2 !! _context (self st1) = heap st1 !! _context (self st1)
    /\ (is_sampled st = (Return true, st) ->
        exists t1 t2,
          logs (self st2) =
            logs (self st) ++
            [make_log t1
               (baggage_fields key (Some v1)
                  (opt_str_truthy (baggage c0 !! key)))
               (max_tag_value_length (_tracer (self st)))
               (max_traceback_length (_tracer (self st)));
             make_log t2
               [("event", PStr "baggage"); ("key", PStr key);
                ("value", PStr v2); ("override", PStr "true")]
               (max_tag_value_length (_tracer (self st)))
               (max_traceback_length (_tracer (self st)))])
    /\ (is_sampled st = (Return false, st) ->
        logs (self st2) = logs (self st)).
Proof.
  intros Hc0 Hv1 Hv2.
  destruct (set_baggage_item_spec st c0 key (Some v1) Hc0)
    as (st1 & Hrun1 & Hctx1 & Hheap1 & Htr1 & _ & Hlogs1).
  set (c1 := with_baggage_item_value erase_empty c0 key (Some v1)) in *.
  assert (Hc1 : heap st1 !! _context (self st1) = Some c1)
    by (rewrite Hheap1, Hctx1; apply lookup_insert_eq).
  destruct (set_baggage_item_spec st1 c1 key (Some v2) Hc1)
    as (st2 & Hrun2 & Hctx2 & Hheap2 & Htr2 & _ & Hlogs2).
  set (c2 := with_baggage_item_value erase_empty c1 key (Some v2)) in *.
  assert (Hc2 : heap st2 !! _context (self st2) = Some c2)
    by (rewrite Hheap2, Hctx2; apply lookup_insert_eq).
  assert (Hnew1 : heap st !! _context (self st1) = None)
    by (rewrite Hctx1; apply fresh_loc_unused).
  assert (Hnew2 : heap st1 !! _context (self st2) = None)
    by (rewrite Hctx2; apply fresh_loc_unused).
  assert (Hne1 : _context (self st1) <> _context (self st))
    by (intros E; rewrite E in Hnew1; congruence).
  assert (Hne2 : _context (self st2) <> _context (self st1))
    by (intros E; rewrite E in Hnew2; congruence).
  assert (Hold1 : heap st1 !! _context (self st) = Some c0).
  { rewrite Hheap1, lookup_insert_ne; [exact Hc0|].
    rewrite <- Hctx1. exact Hne1. }
  exists st1, st2. repeat (split; [assumption|]).
  split.
  { unfold get_baggage_item. unfold_monad.
    rewrite (context_eq _ _ Hc2).
    subst c2. rewrite (with_baggage_item_value_lookup _ _ _ Hv2).
    reflexivity. }
  repeat (split; [assumption|]).
  split.
  { rewrite Hheap2, lookup_insert_ne; [exact Hold1|].
    rewrite <- Hctx2. intros E. rewrite E in Hnew2. congruence. }
  split.
  { rewrite Hheap2, lookup_insert_ne; [reflexivity|].
    rewrite <- Hctx2. exact Hne2. }
  assert (Hf1 : flags c1 = flags c0) by reflexivity.
  rewrite Hf1 in Hlogs2.
  split; intros Hs; apply is_sampled_inv in Hs as (_ & c & Hc & Hb);
    rewrite Hc0 in Hc; injection Hc as <-; rewrite <- Hb in *.
  - destruct Hlogs1 as [t1 Hl1]. destruct Hlogs2 as [t2 Hl2].
    exists t1, t2. rewrite Hl2, Hl1, Htr1, <- app_assoc.
    subst c1. rewrite (with_baggage_item_value_lookup _ _ _ Hv1).
    rewrite (opt_str_truthy_some _ Hv1). reflexivity.
  - rewrite Hlogs2, Hlogs1. reflexivity.
Qed.

(** *** The store of contexts under the mutators *)

Lemma finish_heap st ft : heap (finish ft st).2 = heap st.
Proof.
  destruct (heap st !! _context (self st)) as [c|] eqn:Hc.
  - destruct (finish_cases st ft c Hc) as (st' & -> & Hheap & _).
    exact Hheap.
  - unfold finish, is_sampled, context. unfold_monad.
    rewrite Hc. reflexivity.
Qed.

Lemma set_tag_plain_heap st key v :
  key <> SAMPLING_PRIORITY -> heap (set_tag key v st).2 = heap st.
Proof.
  intros Hk.
  destruct (heap st !! _context (self st)) as [c|] eqn:Hc.
  - pose proof (is_sampled_eq _ _ Hc) as Hs.
    destruct (Z.land (flags c) SAMPLED_FLAG =? SAMPLED_FLAG).
    + rewrite (set_tag_plain_sampled _ _ _ Hk Hs). reflexivity.
    + rewrite (set_tag_plain_unsampled _ _ _ Hk Hs). reflexivity.
  - unfold set_tag. apply String.eqb_neq in Hk. rewrite Hk.
    unfold is_sampled, context. unfold_monad. rewrite Hc. reflexivity.
Qed.

(** [set_tag] with the reserved key leaves the store alone or assigns
    the flags of the attached context. *)
Lemma set_tag_priority_heap st v :
  heap (set_tag SAMPLING_PRIORITY v st).2 = heap st
  \/ exists c f,
       heap st !! _context (self st) = Some c
       /\ heap (set_tag SAMPLING_PRIORITY v st).2
          = <[_context (self st) := set_flags f c]> (heap st).
Proof.
  rewrite set_tag_priority_eq.
  destruct (heap st !! _context (self st)) as [c|] eqn:Hc.
  - rewrite (set_sampling_priority_eq _ _ _ Hc).
    rewrite !(assign_flags_eq _ _ _ Hc).
    destruct (_ && _); [left; reflexivity|].
    destruct (py_int v) as [n| |]; try (left; reflexivity).
    destruct (n =? 0); [right; eauto|].
    destruct (is_debug_allowed _ _); [right; eauto | left; reflexivity].
  - rewrite (set_sampling_priority_dangling _ _ Hc). left. reflexivity.
Qed.

(** C5 (as amended): no [Span] operation changes the trace id, span id,
    parent id or baggage of a context object that already exists, and
    [set_baggage_item] attaches a newly allocated context and leaves the
    old one as it was; the flags of the attached context, however, are
    assigned in place by [set_tag] with the reserved sampling-priority
    key, and by no other operation. *)
Theorem contexts_change_only_in_flags st (cl : Call) (l : loc) c :
  heap st !! l = Some c ->
  exists c',
    heap (call cl st).2 !! l = Some c'
    /\ trace_id c' = trace_id c
    /\ span_id c' = span_id c
    /\ parent_id c' = parent_id c
    /\ baggage c' = baggage c
    /\ (flags c' <> flags c ->
        l = _context (self st)
        /\ exists v, cl = CallSetTag SAMPLING_PRIORITY v)
    /\ (forall key value cur,
          cl = CallSetBaggageItem key value ->
          heap st !! _context (self st) = Some cur ->
          heap st !! _context (self (call cl st).2) = None
          /\ heap (call cl st).2 !! _context (self (call cl st).2)
             = Some (with_baggage_item_value erase_empty cur key value)).
Proof.
  intros Hl.
  assert (Hsame : heap (call cl st).2 = heap st ->
                  (forall key value, cl <> CallSetBaggageItem key value) ->
                  exists c',
                    heap (call cl st).2 !! l = Some c'
                    /\ trace_id c' = trace_id c
                    /\ span_id c' = span_id c
                    /\ parent_id c' = parent_id c
                    /\ baggage c' = baggage c
                    /\ (flags c' <> flags c ->
                        l = _context (self st)
                        /\ exists v, cl = CallSetTag SAMPLING_PRIORITY v)
                    /\ (forall key value cur,
                          cl = CallSetBaggageItem key value ->
                          heap st !! _context (self st) = Some cur ->
                          heap st !! _context (self (call cl st).2) = None
                          /\ heap (call cl st).2
                               !! _context (self (call cl st).2)
                             = Some (with_baggage_item_value erase_empty
                                       cur key value))).
  { intros Hh Hnb. exists c. rewrite Hh.
    repeat (split; [first [exact Hl | reflexivity]|]).
    split; [intros Hf; contradiction|].
    intros key value cur E. destruct (Hnb _ _ E). }
  destruct cl as [name|ft|key value|kv ts|key value]; cbn [call] in *.
  - apply Hsame; [reflexivity | discriminate].
  - apply Hsame; [apply finish_heap | discriminate].
  - destruct (String.eqb_spec key SAMPLING_PRIORITY) as [->|Hk].
    + destruct (set_tag_priority_heap st value)
        as [Hh | (c0 & f & Hc0 & Hh)];
        [apply Hsame; [exact Hh | discriminate]|].
      rewrite Hh.
      destruct (decide (l = _context (self st))) as [->|Hne].
      * rewrite Hc0 in Hl. injection Hl as <-.
        exists (set_flags f c0). rewrite lookup_insert_eq.
        repeat (split; [reflexivity|]).
        split; [eauto | discriminate].
      * exists c. rewrite lookup_insert_ne by congruence.
        repeat (split; [first [exact Hl | reflexivity]|]).
        split; [intros Hf; contradiction | discriminate].
    + apply Hsame; [apply set_tag_plain_heap, Hk | discriminate].
  - apply Hsame; [apply log_kv_heap | discriminate].
  - clear Hsame.
    destruct (heap st !! _context (self st)) as [cur|] eqn:Hcur.
    + destruct (set_baggage_item_spec st cur key value Hcur)
        as (st' & Hrun & Hctx & Hheap & _).
      rewrite Hrun. cbn [snd]. exists c.
      assert (Hfresh : l <> fresh (dom (heap st))).
      { intros ->. rewrite fresh_loc_unused in Hl. discriminate. }
      rewrite Hheap, lookup_insert_ne by congruence.
      repeat (split; [first [exact Hl | reflexivity]|]).
      split; [intros Hf; contradiction|].
      intros key' value' cur' [= <- <-] [= <-].
      rewrite Hctx, lookup_insert_eq. split; [|reflexivity].
      apply fresh_loc_unused.
    + rewrite (set_baggage_item_dangling _ _ _ Hcur). cbn [snd].
      exists c. repeat (split; [first [exact Hl | reflexivity]|]).
      split; [intros Hf; contradiction|]. intros ? ? ? _ [=].
Qed.

(** *** Further properties of the methods *)

Lemma finish_eq st c ft :
  heap st !! _context (self st) = Some c ->
  finish ft st =
    if Z.land (flags c) SAMPLED_FLAG =? SAMPLED_FLAG then
      if finished (self st) then (Return (), warned st)
      else
        (Return (),
         {| self := set_finished (or_now ft (ticks st)).1 (self st);
            heap := heap st; ticks := (or_now ft (ticks st)).2;
            trace :=
              trace st
              ++ [ReportSpan
                    (set_finished (or_now ft (ticks st)).1 (self st))] |})
    else (Return (), st).
Proof.
  intros Hc. unfold finish. unfold_monad. rewrite (is_sampled_eq _ _ Hc).
  destruct (Z.land (flags c) SAMPLED_FLAG =? SAMPLED_FLAG); cbn [negb];
    [|reflexivity].
  destruct (finished (self st)); [reflexivity|].
  unfold or_now, opt_time_truthy, now.
  destruct ft as [t|]; [destruct (t =? 0)|]; reflexivity.
Qed.

Lemma log_kv_eq st c kv ts :
  heap st !! _context (self st) = Some c ->
  log_kv kv ts st =
    if Z.land (flags c) SAMPLED_FLAG =? SAMPLED_FLAG then
      (Return (),
       {| self :=
            append_log
              (make_log (log_time ts (ticks st)).1 kv
                 (max_tag_value_length (_tracer (self st)))
                 (max_traceback_length (_tracer (self st))))
              (self st);
          heap := heap st; ticks := (log_time ts (ticks st)).2;
          trace := trace st |})
    else (Return (), st).
Proof.
  intros Hc. unfold log_kv. unfold_monad. rewrite (is_sampled_eq _ _ Hc).
  destruct (Z.land (flags c) SAMPLED_FLAG =? SAMPLED_FLAG); [|reflexivity].
  unfold log_time, or_now, now.
  destruct (opt_time_truthy ts); cbn [ticks fst snd];
    match goal with
    | |- context [negb (?t =? 0)] => destruct (negb (t =? 0))
    end; reflexivity.
Qed.

(** X1: [finish] on a sampled span that is not finished sets the finished
    flag, sets the end time to the explicit time, or to the clock reading
    when the explicit time is absent or zero, and hands the span, as it
    is then, to [report_span] exactly once; nothing else changes. *)
Theorem finish_sampled_reports_once st ft :
  is_sampled st = (Return true, st) ->
  finished (self st) = false ->
  exists st',
    finish ft st = (Return (), st')
    /\ finished (self st') = true
    /\ end_time (self st')
       = Some (match ft with
               | Some t => if t =? 0 then time_time (ticks st) else t
               | None => time_time (ticks st)
               end)
    /\ trace st' = trace st ++ [ReportSpan (self st')]
    /\ heap st' = heap st
    /\ _context (self st') = _context (self st)
    /\ operation_name (self st') = operation_name (self st)
    /\ start_time (self st') = start_time (self st)
    /\ tags (self st') = tags (self st)
    /\ logs (self st') = logs (self st).
Proof.
  intros Hs Hf. apply is_sampled_inv in Hs as (_ & c & Hc & Hb).
  rewrite (finish_eq _ _ _ Hc), <- Hb, Hf.
  eexists. split; [reflexivity|]. cbn.
  split; [reflexivity|]. split; [|auto 10].
  unfold or_now, opt_time_truthy.
  destruct ft as [t|]; [destruct (t =? 0)|]; reflexivity.
Qed.

(** X2: [log_kv] on a sampled span with an explicit non-zero timestamp
    appends one record with exactly that timestamp and does not read the
    clock; nothing else changes. *)
Theorem log_kv_explicit_timestamp st kv (t : Z) :
  is_sampled st = (Return true, st) ->
  t <> 0 ->
  log_kv kv (Some t) st =
    (Return (),
     {| self :=
          append_log
            (make_log t kv (max_tag_value_length (_tracer (self st)))
               (max_traceback_length (_tracer (self st))))
            (self st);
        heap := heap st; ticks := ticks st; trace := trace st |}).
Proof.
  intros Hs Ht. apply is_sampled_inv in Hs as (_ & c & Hc & Hb).
  rewrite (log_kv_eq _ _ _ _ Hc), <- Hb.
  unfold log_time, or_now, opt_time_truthy.
  apply Z.eqb_neq in Ht. rewrite Ht. cbn [negb].
  change (default 0 (Some t)) with t. rewrite Ht. reflexivity.
Qed.

(** X3: [log_kv] on a sampled span with no timestamp, or with the
    timestamp zero, stamps the record with the current clock reading. *)
Theorem log_kv_clock_timestamp st kv ts :
  is_sampled st = (Return true, st) ->
  ts = None \/ ts = Some 0 ->
  time_time (ticks st) <> 0 ->
  log_kv kv ts st =
    (Return (),
     {| self :=
          append_log
            (make_log (time_time (ticks st)) kv
               (max_tag_value_length (_tracer (self st)))
               (max_traceback_length (_tracer (self st))))
            (self st);
        heap := heap st; ticks := S (ticks st); trace := trace st |}).
Proof.
  intros Hs Hts Hclock. apply is_sampled_inv in Hs as (_ & c & Hc & Hb).
  rewrite (log_kv_eq _ _ _ _ Hc), <- Hb.
  apply Z.eqb_neq in Hclock.
  unfold log_time, or_now.
  destruct Hts as [-> | ->]; cbn [opt_time_truthy Z.eqb negb];
    rewrite Hclock; reflexivity.
Qed.

(** *** What one call can do *)

Ltac app_suffix := first [reflexivity | symmetry; apply app_nil_r].

Ltac solve_effect :=
  do 5 eexists; split; [reflexivity|];
  cbn [self heap ticks trace _tracer _context start_time references tags
       logs finished end_time set_name set_finished append_tag append_log
       set_context warned fst snd];
  split; [reflexivity|]; split; [reflexivity|]; split; [reflexivity|];
  split; [app_suffix|]; split; [cbn; lia|];
  split; [app_suffix|]; split; [cbn; lia|];
  split; [app_suffix|];
  split;
    [ first
        [ left; repeat split; reflexivity
        | right; left; repeat split; first [reflexivity | assumption]
        | right; right; repeat split; first [reflexivity | assumption | eauto] ]
    |];
  split;
    [eexists; split;
       [first [eassumption | apply lookup_insert_eq]
       |repeat split; reflexivity]
    |];
  intros e He;
  first [discriminate He | injection He as <-; repeat split; eauto].

(** Every call keeps the tracer, the start time and the references,
    extends the tag and log sequences by at most one record each, emits
    at most one event, leaves the span attached to a context with the
    same identifiers, and, when it raises, raises before it has changed
    anything. *)
Lemma call_effect (cl : Call) st c :
  heap st !! _context (self st) = Some c ->
  exists r st' (sufT : list Tag) (sufL : list Log) (evs : list Event),
    call cl st = (r, st')
    /\ _tracer (self st') = _tracer (self st)
    /\ start_time (self st') = start_time (self st)
    /\ references (self st') = references (self st)
    /\ tags (self st') = tags (self st) ++ sufT
    /\ (length sufT <= 1)%nat
    /\ logs (self st') = logs (self st) ++ sufL
    /\ (length sufL <= 1)%nat
    /\ trace st' = trace st ++ evs
    /\ ((evs = []
         /\ finished (self st') = finished (self st)
         /\ end_time (self st') = end_time (self st))
        \/ (evs = [Warning already_finished]
            /\ finished (self st) = true
            /\ finished (self st') = true
            /\ end_time (self st') = end_time (self st))
        \/ (evs = [ReportSpan (self st')]
            /\ finished (self st) = false
            /\ finished (self st') = true
            /\ exists ft, cl = CallFinish ft))
    /\ (exists c',
          heap st' !! _context (self st') = Some c'
          /\ trace_id c' = trace_id c
          /\ span_id c' = span_id c
          /\ parent_id c' = parent_id c)
    /\ (forall e,
          r = Raise e ->
          st' = st /\ e = TypeError
          /\ exists v, cl = CallSetTag SAMPLING_PRIORITY v
                       /\ py_int v = IntTypeError).
Proof.
  intros Hc.
  destruct cl as [name|ft|key value|kv ts|key value]; cbn [call].
  - unfold set_operation_name. unfold_monad. solve_effect.
  - rewrite (finish_eq _ _ _ Hc).
    destruct (Z.land (flags c) SAMPLED_FLAG =? SAMPLED_FLAG);
      [destruct (finished (self st)) eqn:Hf|]; solve_effect.
  - destruct (String.eqb_spec key SAMPLING_PRIORITY) as [->|Hk].
    + rewrite set_tag_priority_eq, (set_sampling_priority_eq _ _ _ Hc).
      rewrite !(assign_flags_eq _ _ _ Hc).
      destruct (_ && _); [solve_effect|].
      destruct (py_int value) as [n| |] eqn:Hv;
        [destruct (n =? 0); [|destruct (is_debug_allowed _ _)] | |];
        solve_effect.
    + pose proof (is_sampled_eq _ _ Hc) as Hs.
      destruct (Z.land (flags c) SAMPLED_FLAG =? SAMPLED_FLAG);
        [rewrite (set_tag_plain_sampled _ _ _ Hk Hs)
        |rewrite (set_tag_plain_unsampled _ _ _ Hk Hs)];
        solve_effect.
  - rewrite (log_kv_eq _ _ _ _ Hc).
    destruct (Z.land (flags c) SAMPLED_FLAG =? SAMPLED_FLAG); solve_effect.
  - rewrite (set_baggage_item_eq _ _ _ _ Hc). cbv zeta.
    match goal with |- context [(Return (), ?s1)] => set (st1 := s1) end.
    assert (Hc1 : heap st1 !! _context (self st1)
                  = Some (with_baggage_item_value erase_empty c key value))
      by (subst st1; cbn [self heap set_context _context];
          apply lookup_insert_eq).
    rewrite (log_kv_eq _ _ _ _ Hc1). cbn [flags with_baggage_item_value].
    subst st1.
    destruct (Z.land (flags c) SAMPLED_FLAG =? SAMPLED_FLAG); solve_effect.
Qed.

Lemma calls_cons (cl : Call) cs st :
  calls (cl :: cs) st =
    match call cl st with
    | (Return _, st1) => calls cs st1
    | (Raise e, st1) => (Raise e, st1)
    end.
Proof.
  cbn [calls]. unfold_monad.
  destruct (call cl st) as [[[]|e] st1]; reflexivity.
Qed.

(** The effect of a sequence of calls, up to the first exception. *)
Lemma calls_effect cs : forall st c,
  heap st !! _context (self st) = Some c ->
  exists r st' (sufT : list Tag) (sufL : list Log),
    calls cs st = (r, st')
    /\ _tracer (self st') = _tracer (self st)
    /\ start_time (self st') = start_time (self st)
    /\ references (self st') = references (self st)
    /\ tags (self st') = tags (self st) ++ sufT
    /\ (length sufT <= length cs)%nat
    /\ logs (self st') = logs (self st) ++ sufL
    /\ (length sufL <= length cs)%nat
    /\ (finished (self st) = true ->
        finished (self st') = true
        /\ end_time (self st') = end_time (self st)
        /\ count_reports (trace st') = count_reports (trace st))
    /\ (count_reports (trace st') <= S (count_reports (trace st)))%nat
    /\ (exists c',
          heap st' !! _context (self st') = Some c'
          /\ trace_id c' = trace_id c
          /\ span_id c' = span_id c
          /\ parent_id c' = parent_id c).
Proof.
  induction cs as [|cl cs IH]; intros st c Hc.
  - exists (Return ()), st, [], []. cbn. rewrite !app_nil_r.
    repeat split; eauto 10.
  - rewrite calls_cons.
    destruct (call_effect cl st c Hc)
      as (r1 & st1 & t1 & l1 & evs & Hrun & Htr & Hst & Hrf & Ht & Hlt
          & Hl & Hll & Hev & Hfin & (c1 & Hc1 & Hi1 & Hi2 & Hi3) & Hraise).
    rewrite Hrun.
    assert (Hcount : (count_reports (trace st1)
                      <= S (count_reports (trace st)))%nat
                     /\ (finished (self st) = true ->
                         finished (self st1) = true
                         /\ end_time (self st1) = end_time (self st)
                         /\ count_reports (trace st1)
                            = count_reports (trace st))
                     /\ (count_reports (trace st1)
                         = S (count_reports (trace st)) ->
                         finished (self st1) = true)).
    { rewrite Hev, count_reports_app.
      destruct Hfin as [(-> & Hf & He) | [(-> & Hf0 & Hf & He)
                                         | (-> & Hf0 & Hf & _)]];
        cbn [count_reports]; repeat split; try lia; try congruence. }
    destruct Hcount as (Hle1 & Hfin1 & Hrep1).
    destruct r1 as [[]|e].
    + destruct (IH st1 c1 Hc1)
        as (r & st' & t2 & l2 & Hrun2 & Htr2 & Hst2 & Hrf2 & Ht2 & Hlt2
            & Hl2 & Hll2 & Hfin2 & Hle2 & Hwf2).
      exists r, st', (t1 ++ t2), (l1 ++ l2).
      split; [exact Hrun2|].
      rewrite Htr2, Hst2, Hrf2, Ht2, Hl2, Htr, Hst, Hrf, Ht, Hl.
      rewrite <- !app_assoc, !length_app. cbn [length].
      repeat split; try lia;
        try (destruct Hwf2 as (c2 & Hc2 & Hj1 & Hj2 & Hj3);
             exists c2; repeat split; congruence).
      * apply Hfin2, Hfin1. assumption.
      * match goal with
        | Hf : finished (self st) = true |- _ =>
            rewrite (proj1 (proj2 (Hfin2 (proj1 (Hfin1 Hf)))));
            apply Hfin1, Hf
        end.
      * match goal with
        | Hf : finished (self st) = true |- _ =>
            rewrite (proj2 (proj2 (Hfin2 (proj1 (Hfin1 Hf)))));
            apply Hfin1, Hf
        end.
      * destruct (Nat.eq_dec (count_reports (trace st1))
                    (S (count_reports (trace st)))) as [E|E].
        -- rewrite (proj2 (proj2 (Hfin2 (Hrep1 E)))). lia.
        -- lia.
    + destruct (Hraise e eq_refl) as (-> & _).
      exists (Raise e), st, [], []. rewrite !app_nil_r. cbn [length].
      repeat split; eauto 10; lia.
Qed.

(** X4: the tag and log sequences are append-only.  After any sequence of
    calls (up to the first exception) the old tag sequence and the old log
    sequence are prefixes of the new ones, and each call has added at most
    one record to each; tracer, start time and references are as before. *)
Theorem tags_and_logs_are_append_only st cs :
  is_Some (heap st !! _context (self st)) ->
  exists (sufT : list Tag) (sufL : list Log),
    tags (self (calls cs st).2) = tags (self st) ++ sufT
    /\ (length sufT <= length cs)%nat
    /\ logs (self (calls cs st).2) = logs (self st) ++ sufL
    /\ (length sufL <= length cs)%nat
    /\ _tracer (self (calls cs st).2) = _tracer (self st)
    /\ start_time (self (calls cs st).2) = start_time (self st)
    /\ references (self (calls cs st).2) = references (self st).
Proof.
  intros [c Hc].
  destruct (calls_effect cs st c Hc)
    as (r & st' & t & l & Hrun & Htr & Hst & Hrf & Ht & Hlt & Hl & Hll & _).
  rewrite Hrun. cbn [snd]. exists t, l. auto 10.
Qed.

(** X5: the finished state is absorbing.  Once a span is finished, no
    sequence of calls resets the flag, changes the end time or triggers
    another report. *)
Theorem finished_is_absorbing st cs :
  is_Some (heap st !! _context (self st)) ->
  finished (self st) = true ->
  finished (self (calls cs st).2) = true
  /\ end_time (self (calls cs st).2) = end_time (self st)
  /\ count_reports (trace (calls cs st).2) = count_reports (trace st).
Proof.
  intros [c Hc] Hf.
  destruct (calls_effect cs st c Hc)
    as (r & st' & t & l & Hrun & _ & _ & _ & _ & _ & _ & _ & Hfin & _).
  rewrite Hrun. cbn [snd]. apply Hfin, Hf.
Qed.

(** X6: whatever the mix of operations, a span is handed to [report_span]
    at most once: any sequence of calls adds at most one report to the
    trace. *)
Theorem any_calls_report_at_most_once st cs :
  is_Some (heap st !! _context (self st)) ->
  (count_reports (trace (calls cs st).2) <= S (count_reports (trace st)))%nat.
Proof.
  intros [c Hc].
  destruct (calls_effect cs st c Hc)
    as (r & st' & t & l & Hrun & _ & _ & _ & _ & _ & _ & _ & _ & Hle & _).
  rewrite Hrun. exact Hle.
Qed.


Lemma calls_plain_sampled cs : forall st c,
  heap st !! _context (self st) = Some c ->
  (Z.land (flags c) SAMPLED_FLAG =? SAMPLED_FLAG) = true ->
  Forall plain_store_call cs ->
  exists st' (sufL : list Log),
    calls cs st = (Return (), st')
    /\ heap st' = heap st
    /\ _context (self st') = _context (self st)
    /\ _tracer (self st') = _tracer (self st)
    /\ finished (self st') = finished (self st)
    /\ trace st' = trace st
    /\ tags (self st')
       = tags (self st) ++ tags_of_calls (_tracer (self st)) cs
    /\ logs (self st') = logs (self st) ++ sufL
    /\ length sufL = count_log_calls cs
    /\ operation_name (self st') = operation_name (self st)
    /\ start_time (self st') = start_time (self st)
    /\ end_time (self st') = end_time (self st).
Proof.
  induction cs as [|cl cs IH]; intros st c Hc Hs Hcs.
  - exists st, []. cbn. rewrite !app_nil_r. auto 15.
  - inversion Hcs as [|? ? Hcl Hrest]; subst.
    rewrite calls_cons.
    destruct cl as [name|ft|key value|kv ts|key value];
      cbn [plain_store_call] in Hcl; try contradiction; cbn [call].
    + assert (Hsam : is_sampled st = (Return true, st))
        by (rewrite (is_sampled_eq _ _ Hc), Hs; reflexivity).
      rewrite (set_tag_plain_sampled _ _ _ Hcl Hsam).
      match goal with |- context [calls cs ?s1] => set (st1 := s1) end.
      destruct (IH st1 c) as (st' & l & Hrun & Hh & Hx & Htr & Hf & Hev
                              & Ht & Hl & Hn & Hon & Hst & Het);
        [exact Hc | exact Hs | exact Hrest |].
      exists st', l. split; [exact Hrun|].
      rewrite Hh, Hx, Htr, Hf, Hev, Ht, Hl, Hn, Hon, Hst, Het. subst st1.
      cbn [self heap trace append_tag tags logs _tracer _context finished
           operation_name start_time end_time
           tags_of_calls flat_map count_log_calls app].
      rewrite <- app_assoc. auto 15.
    + rewrite (log_kv_eq _ _ _ _ Hc), Hs.
      match goal with |- context [calls cs ?s1] => set (st1 := s1) end.
      destruct (IH st1 c) as (st' & l & Hrun & Hh & Hx & Htr & Hf & Hev
                              & Ht & Hl & Hn & Hon & Hst & Het);
        [exact Hc | exact Hs | exact Hrest |].
      exists st'. eexists. split; [exact Hrun|].
      rewrite Hh, Hx, Htr, Hf, Hev, Ht, Hl, Hon, Hst, Het. subst st1.
      cbn [self heap trace append_log tags logs _tracer _context finished
           operation_name start_time end_time
           tags_of_calls flat_map count_log_calls app].
      rewrite <- app_assoc.
      repeat (split; [reflexivity|]). cbn [length app]. rewrite Hn.
      auto.
Qed.

(** X8: on a sampled span, finished or not, a sequence of [set_tag] calls
    with ordinary keys and [log_kv] calls returns without error, appends
    the encoder's record of every [set_tag] call in call order, and
    appends exactly one log record per [log_kv] call. *)
Theorem sampled_span_stores_in_call_order st cs :
  is_sampled st = (Return true, st) ->
  Forall plain_store_call cs ->
  exists st' (sufL : list Log),
    calls cs st = (Return (), st')
    /\ tags (self st')
       = tags (self st) ++ tags_of_calls (_tracer (self st)) cs
    /\ logs (self st') = logs (self st) ++ sufL
    /\ length sufL = count_log_calls cs
    /\ is_sampled st' = (Return true, st').
Proof.
  intros Hs Hcs. apply is_sampled_inv in Hs as (_ & c & Hc & Hb).
  destruct (calls_plain_sampled cs st c Hc (eq_sym Hb) Hcs)
    as (st' & l & Hrun & Hh & Hx & _ & _ & _ & Ht & Hl & Hn & _).
  exists st', l. repeat (split; [assumption|]).
  rewrite (is_sampled_eq st' c) by (rewrite Hh, Hx; exact Hc).
  rewrite <- Hb. reflexivity.
Qed.

(** *** Sampling priority *)

Lemma land_lor_mask_r f a b : Z.land (Z.lor f (Z.lor a b)) b = b.
Proof.
  apply Z.bits_inj'. intros n Hn.
  rewrite Z.land_spec, !Z.lor_spec.
  destruct (Z.testbit f n), (Z.testbit a n), (Z.testbit b n); reflexivity.
Qed.

(** The state after a successful elevation. *)
Lemma priority_elevates_eq st c v n :
  heap st !! _context (self st) = Some c ->
  (Z.land (flags c) DEBUG_FLAG =? DEBUG_FLAG) = false ->
  py_int v = IntOk n ->
  n <> 0 ->
  is_debug_allowed (_tracer (self st)) (operation_name (self st)) = true ->
  set_tag SAMPLING_PRIORITY v st =
    (Return (),
     {| self :=
          append_tag
            (make_tag SAMPLING_PRIORITY v
               (max_tag_value_length (_tracer (self st)))
               (max_traceback_length (_tracer (self st))))
            (self st);
        heap :=
          <[_context (self st) :=
              set_flags (Z.lor (flags c) (Z.lor SAMPLED_FLAG DEBUG_FLAG)) c]>
            (heap st);
        ticks := ticks st; trace := trace st |}).
Proof.
  intros Hc Hd Hv Hn Hallow.
  rewrite set_tag_priority_eq, (set_sampling_priority_eq _ _ _ Hc).
  rewrite Hd, Hv, Hallow. cbn [andb].
  apply Z.eqb_neq in Hn. rewrite Hn.
  rewrite (assign_flags_eq _ _ _ Hc). reflexivity.
Qed.

(** X9: on a span that is not in debug mode, sampled or not, [set_tag]
    with the reserved sampling-priority key and a value that [int()]
    turns into a non-zero integer, when the tracer allows debug for the
    operation name, sets both flags on the attached context, so that the
    span is sampled and in debug mode afterwards, and stores the tag. *)
Theorem priority_elevates_span st c v n :
  heap st !! _context (self st) = Some c ->
  (Z.land (flags c) DEBUG_FLAG =? DEBUG_FLAG) = false ->
  py_int v = IntOk n ->
  n <> 0 ->
  is_debug_allowed (_tracer (self st)) (operation_name (self st)) = true ->
  exists st',
    set_tag SAMPLING_PRIORITY v st = (Return (), st')
    /\ is_sampled st' = (Return true, st')
    /\ is_debug st' = (Return true, st')
    /\ _context (self st') = _context (self st)
    /\ heap st' !! _context (self st)
       = Some (set_flags (Z.lor (flags c) (Z.lor SAMPLED_FLAG DEBUG_FLAG)) c)
    /\ tags (self st')
       = tags (self st)
         ++ [make_tag SAMPLING_PRIORITY v
               (max_tag_value_length (_tracer (self st)))
               (max_traceback_length (_tracer (self st)))]
    /\ logs (self st') = logs (self st).
Proof.
  intros Hc Hd Hv Hn Hallow.
  rewrite (priority_elevates_eq _ _ _ _ Hc Hd Hv Hn Hallow).
  eexists. split; [reflexivity|].
  cbn [self heap append_tag _context tags logs].
  assert (Hl : <[_context (self st) :=
                   set_flags (Z.lor (flags c) (Z.lor SAMPLED_FLAG DEBUG_FLAG))
                     c]> (heap st) !! _context (self st)
               = Some (set_flags
                         (Z.lor (flags c) (Z.lor SAMPLED_FLAG DEBUG_FLAG)) c))
    by apply lookup_insert_eq.
  split.
  { erewrite is_sampled_eq by (cbn [self heap append_tag _context]; exact Hl).
    cbn [flags set_flags]. rewrite land_lor_mask, Z.eqb_refl. reflexivity. }
  split.
  { erewrite is_debug_eq by (cbn [self heap append_tag _context]; exact Hl).
    cbn [flags set_flags]. rewrite land_lor_mask_r, Z.eqb_refl. reflexivity. }
  auto.
Qed.

(** X10: when the tracer does not allow debug for the operation name, a
    non-zero sampling priority on a span that is not in debug mode
    changes nothing: no flag, no tag. *)
Theorem priority_denied_changes_nothing st c v n :
  heap st !! _context (self st) = Some c ->
  (Z.land (flags c) DEBUG_FLAG =? DEBUG_FLAG) = false ->
  py_int v = IntOk n ->
  n <> 0 ->
  is_debug_allowed (_tracer (self st)) (operation_name (self st)) = false ->
  set_tag SAMPLING_PRIORITY v st = (Return (), st).
Proof.
  intros Hc Hd Hv Hn Hallow.
  rewrite set_tag_priority_eq, (set_sampling_priority_eq _ _ _ Hc).
  rewrite Hd, Hv, Hallow. cbn [andb].
  apply Z.eqb_neq in Hn. rewrite Hn. reflexivity.
Qed.

(** X11: elevation happens once.  After a successful elevation, [set_tag]
    with the reserved key and any truthy value changes nothing, so the
    tag is stored once however often the priority is set again. *)
Theorem priority_elevation_is_idempotent st c v n :
  heap st !! _context (self st) = Some c ->
  (Z.land (flags c) DEBUG_FLAG =? DEBUG_FLAG) = false ->
  py_int v = IntOk n ->
  n <> 0 ->
  is_debug_allowed (_tracer (self st)) (operation_name (self st)) = true ->
  exists st',
    set_tag SAMPLING_PRIORITY v st = (Return (), st')
    /\ forall v', py_truthy v' = true ->
                  set_tag SAMPLING_PRIORITY v' st' = (Return (), st').
Proof.
  intros Hc Hd Hv Hn Hallow.
  rewrite (priority_elevates_eq _ _ _ _ Hc Hd Hv Hn Hallow).
  eexists. split; [reflexivity|]. intros v' Hv'.
  apply truthy_priority_on_debug_span; [|exact Hv'].
  erewrite is_debug_eq
    by (cbn [self heap append_tag _context]; apply lookup_insert_eq).
  cbn [flags set_flags]. rewrite land_lor_mask_r, Z.eqb_refl. reflexivity.
Qed.

(** X12: the tracer is asked about the operation name the span has at
    the time of the call: after [set_operation_name name], a non-zero
    priority elevates exactly when debug is allowed for [name]. *)
Theorem elevation_consults_current_name st c v n (name : string) :
  heap st !! _context (self st) = Some c ->
  (Z.land (flags c) DEBUG_FLAG =? DEBUG_FLAG) = false ->
  py_int v = IntOk n ->
  n <> 0 ->
  elevated (_set_sampling_priority v (set_operation_name name st).2).1
  = is_debug_allowed (_tracer (self st)) name.
Proof.
  intros Hc Hd Hv Hn.
  unfold set_operation_name. unfold_monad. cbn [snd].
  match goal with
  | |- context [_set_sampling_priority v ?s1] => set (st1 := s1)
  end.
  assert (Hc1 : heap st1 !! _context (self st1) = Some c) by exact Hc.
  rewrite (set_sampling_priority_eq _ _ _ Hc1), Hd, Hv. cbn [andb].
  apply Z.eqb_neq in Hn. rewrite Hn. subst st1.
  cbn [self set_name _tracer operation_name].
  destruct (is_debug_allowed (_tracer (self st)) name); reflexivity.
Qed.

(** X13: priority zero silences the span.  Once [set_tag] with the
    reserved key and a value that parses to zero has passed the debug
    guard, ordinary [set_tag] and [log_kv] calls store nothing and
    [finish] neither reports nor marks the span finished. *)
Theorem priority_zero_silences_span st c v cs ft :
  heap st !! _context (self st) = Some c ->
  py_int v = IntOk 0 ->
  (Z.land (flags c) DEBUG_FLAG =? DEBUG_FLAG) && py_truthy v = false ->
  SAMPLED_FLAG <> 0 ->
  Forall plain_store_call cs ->
  exists st1,
    set_tag SAMPLING_PRIORITY v st = (Return (), st1)
    /\ self st1 = self st
    /\ calls cs st1 = (Return (), st1)
    /\ finish ft st1 = (Return (), st1).
Proof.
  intros Hc Hv Hg HS Hcs.
  destruct (priority_zero_clears st c v Hc Hv Hg)
    as (st1 & Hrun & Hself & _ & Hs).
  specialize (Hs HS).
  exists st1. split; [exact Hrun|]. split; [exact Hself|].
  split; [apply calls_plain_unsampled; assumption|].
  unfold finish. unfold_monad. rewrite Hs. reflexivity.
Qed.

(** *** Baggage and identity *)

(** X14: [set_baggage_item] on an unsampled span still attaches a new
    context, but writes no log record, does not read the clock and emits
    no event; the span stays unsampled. *)
Theorem set_baggage_item_on_unsampled_span st key value :
  is_sampled st = (Return false, st) ->
  exists st',
    set_baggage_item key value st = (Return (), st')
    /\ heap st !! _context (self st') = None
    /\ is_Some (heap st' !! _context (self st'))
    /\ logs (self st') = logs (self st)
    /\ tags (self st') = tags (self st)
    /\ ticks st' = ticks st
    /\ trace st' = trace st
    /\ is_sampled st' = (Return false, st').
Proof.
  intros Hs. apply is_sampled_inv in Hs as (_ & c & Hc & Hb).
  rewrite (set_baggage_item_eq _ _ _ _ Hc), <- Hb. cbv zeta.
  eexists. split; [reflexivity|].
  cbn [self heap ticks trace set_context _context logs tags].
  split; [apply fresh_loc_unused|].
  split; [eexists; apply lookup_insert_eq|].
  repeat (split; [reflexivity|]).
  erewrite is_sampled_eq
    by (cbn [self heap set_context _context]; apply lookup_insert_eq).
  cbn [flags with_baggage_item_value]. rewrite <- Hb. reflexivity.
Qed.

Lemma opt_str_truthy_match (o : option string) :
  opt_str_truthy o
  = match o with
    | Some (String _ _) => true
    | _ => false
    end.
Proof. destruct o as [[|a s]|]; reflexivity. Qed.

(** X15: on a sampled span [set_baggage_item] appends one log record
    with the fields event = "baggage", key and value, in this order, and
    carries the field override = "true" after them exactly when the key
    had a non-empty value before; an absent or empty previous value gives
    no override field.  The tag sequence is as before. *)
Theorem baggage_log_marks_override st c key value :
  heap st !! _context (self st) = Some c ->
  (Z.land (flags c) SAMPLED_FLAG =? SAMPLED_FLAG) = true ->
  exists st' (t : Z),
    set_baggage_item key value st = (Return (), st')
    /\ logs (self st')
       = logs (self st)
         ++ [make_log t
               ([("event", PStr "baggage"); ("key", PStr key);
                 ("value", of_opt_str value)]
                ++ match baggage c !! key with
                   | Some (String _ _) => [("override", PStr "true")]
                   | _ => []
                   end)
               (max_tag_value_length (_tracer (self st)))
               (max_traceback_length (_tracer (self st)))]
    /\ tags (self st') = tags (self st).
Proof.
  intros Hc Hs.
  destruct (set_baggage_item_spec st c key value Hc)
    as (st' & Hrun & _ & _ & _ & Htags & Hlogs).
  rewrite Hs in Hlogs. destruct Hlogs as [t Hlogs].
  exists st', t. split; [exact Hrun|]. split; [|exact Htags].
  rewrite Hlogs. unfold baggage_fields. rewrite opt_str_truthy_match.
  destruct (baggage c !! key) as [[|a s]|]; reflexivity.
Qed.

(** X16: the identity of a span is stable.  Whatever sequence of calls
    is made, the trace id, span id and parent id read through the span
    are those of the context it was attached to at the start. *)
Theorem span_identity_is_stable st cs c :
  heap st !! _context (self st) = Some c ->
  (Span_trace_id (calls cs st).2).1 = Return (trace_id c)
  /\ (Span_span_id (calls cs st).2).1 = Return (span_id c)
  /\ (Span_parent_id (calls cs st).2).1 = Return (parent_id c).
Proof.
  intros Hc.
  destruct (calls_effect cs st c Hc)
    as (r & st' & t & l & Hrun & _ & _ & _ & _ & _ & _ & _ & _ & _
        & (c' & Hc' & H1' & H2' & H3')).
  rewrite Hrun. cbn [snd].
  unfold Span_trace_id, Span_span_id, Span_parent_id. unfold_monad.
  rewrite (context_eq _ _ Hc'). cbn [fst].
  rewrite H1', H2', H3'. auto.
Qed.

(** *** RPC classification *)

Context `{!TagFields}.

Lemma is_rpc_eq st : is_rpc st = (Return (is_rpc_in (tags (self st))), st).
Proof. reflexivity. Qed.

Lemma is_rpc_client_eq st :
  is_rpc_client st = (Return (is_rpc_client_in (tags (self st))), st).
Proof. reflexivity. Qed.

Lemma is_rpc_client_in_is_rpc_in (ts : list Tag) :
  is_rpc_client_in ts = true -> is_rpc_in ts = true.
Proof.
  induction ts as [|t ts IH]; cbn [is_rpc_client_in is_rpc_in];
    [discriminate|].
  destruct (String.eqb (tag_key t) SPAN_KIND); [|exact IH].
  intros ->. reflexivity.
Qed.

Lemma rpc_scan_skips (pre : list Tag) (ts : list Tag) :
  Forall (fun x => tag_key x <> SPAN_KIND) pre ->
  is_rpc_in (pre ++ ts) = is_rpc_in ts
  /\ is_rpc_client_in (pre ++ ts) = is_rpc_client_in ts.
Proof.
  induction 1 as [|x pre Hx _ IH]; [split; reflexivity|].
  cbn [app is_rpc_in is_rpc_client_in].
  apply String.eqb_neq in Hx. rewrite Hx. exact IH.
Qed.

Lemma rpc_scan_stops (ts suf : list Tag) :
  Exists (fun x => tag_key x = SPAN_KIND) ts ->
  is_rpc_in (ts ++ suf) = is_rpc_in ts
  /\ is_rpc_client_in (ts ++ suf) = is_rpc_client_in ts.
Proof.
  induction ts as [|x ts IH]; intros Hex; [inversion Hex|].
  cbn [app is_rpc_in is_rpc_client_in].
  destruct (String.eqb_spec (tag_key x) SPAN_KIND) as [E|E];
    [split; reflexivity|].
  apply IH. inversion Hex; [contradiction | assumption].
Qed.

(** X17: a span that [is_rpc_client] classifies as an RPC client is also
    an RPC span for [is_rpc]. *)
Theorem rpc_client_is_rpc st :
  is_rpc_client st = (Return true, st) -> is_rpc st = (Return true, st).
Proof.
  rewrite is_rpc_client_eq, is_rpc_eq. intros [= Hc].
  rewrite (is_rpc_client_in_is_rpc_in _ Hc). reflexivity.
Qed.

(** X18: the first tag with the key "span.kind" decides, whatever comes
    after it: [is_rpc] holds exactly when its string value is "client" or
    "server", [is_rpc_client] exactly when it is "client". *)
Theorem first_span_kind_tag_decides st (pre : list Tag) (t : Tag)
    (post : list Tag) :
  tags (self st) = pre ++ t :: post ->
  Forall (fun x => tag_key x <> SPAN_KIND) pre ->
  tag_key t = SPAN_KIND ->
  is_rpc st
  = (Return (vStr_is t SPAN_KIND_RPC_CLIENT || vStr_is t SPAN_KIND_RPC_SERVER),
     st)
  /\ is_rpc_client st = (Return (vStr_is t SPAN_KIND_RPC_CLIENT), st).
Proof.
  intros Ht Hpre Hk. rewrite is_rpc_eq, is_rpc_client_eq, Ht.
  destruct (rpc_scan_skips pre (t :: post) Hpre) as [-> ->].
  cbn [is_rpc_in is_rpc_client_in]. rewrite Hk, String.eqb_refl. auto.
Qed.

(** X19: without a tag with the key "span.kind" a span is neither RPC nor
    RPC client; in particular this holds for every span without tags. *)
Theorem no_span_kind_tag_is_not_rpc st :
  Forall (fun x => tag_key x <> SPAN_KIND) (tags (self st)) ->
  is_rpc st = (Return false, st) /\ is_rpc_client st = (Return false, st).
Proof.
  intros Hts. rewrite is_rpc_eq, is_rpc_client_eq.
  destruct (rpc_scan_skips (tags (self st)) [] Hts) as [E1 E2].
  rewrite app_nil_r in E1, E2. rewrite E1, E2. auto.
Qed.

(** X20: once a tag with the key "span.kind" is recorded, no later call
    changes the answers of [is_rpc] and [is_rpc_client]: a second
    "span.kind" tag comes too late. *)
Theorem rpc_classification_is_stable st cs :
  is_Some (heap st !! _context (self st)) ->
  Exists (fun x => tag_key x = SPAN_KIND) (tags (self st)) ->
  (is_rpc (calls cs st).2).1 = (is_rpc st).1
  /\ (is_rpc_client (calls cs st).2).1 = (is_rpc_client st).1.
Proof.
  intros [c Hc] Hex.
  destruct (calls_effect cs st c Hc)
    as (r & st' & t & l & Hrun & _ & _ & _ & Ht & _).
  rewrite Hrun. cbn [snd]. rewrite !is_rpc_eq, !is_rpc_client_eq, Ht.
  destruct (rpc_scan_stops (tags (self st)) t Hex) as [-> ->]. auto.
Qed.

(** *** The constructor *)

Lemma set_tags_calls items : forall st,
  set_tags items st = calls (seed_calls items) st.
Proof.
  induction items as [|[k v] items IH]; intros st; [reflexivity|].
  cbn [set_tags seed_calls map calls call fst snd]. unfold_monad.
  destruct (set_tag k v st) as [[[]|e] st1]; [apply IH | reflexivity].
Qed.

Lemma calls_app cs1 cs2 : forall st,
  calls (cs1 ++ cs2) st =
    match calls cs1 st with
    | (Return _, st1) => calls cs2 st1
    | (Raise e, st1) => (Raise e, st1)
    end.
Proof.
  induction cs1 as [|cl cs1 IH]; intros st; [reflexivity|].
  cbn [app]. rewrite !calls_cons.
  destruct (call cl st) as [[[]|e] st1]; [apply IH | reflexivity].
Qed.

Lemma seed_calls_plain items :
  Forall (fun kv => kv.1 <> SAMPLING_PRIORITY) items ->
  Forall plain_store_call (seed_calls items).
Proof.
  induction 1 as [|[k v] items Hk _ IH]; constructor; assumption.
Qed.

Lemma tags_of_seed_calls (tr : Tracer) items :
  tags_of_calls tr (seed_calls items)
  = map (fun kv => make_tag kv.1 kv.2 (max_tag_value_length tr)
                     (max_traceback_length tr)) items.
Proof.
  induction items as [|[k v] items IH]; [reflexivity|].
  cbn [seed_calls map tags_of_calls flat_map app fst snd] in *.
  rewrite <- IH. reflexivity.
Qed.

Lemma count_log_seed_calls items : count_log_calls (seed_calls items) = 0%nat.
Proof. induction items as [|[k v] items IH]; [reflexivity | exact IH]. Qed.

Lemma init_eq (ctx : loc) (tracer : Tracer) (name : string)
    (items : list (string * pyval)) (start : option Z)
    (refs : option (list Reference)) (h : gmap loc SpanContext)
    (n : nat) (tr : list Event) :
  __init__ ctx tracer name (Some items) start refs h n tr =
    calls (seed_calls items)
      {| self := {| _tracer := tracer; _context := ctx;
                    operation_name := name;
                    start_time := (or_now start n).1;
                    end_time := None; finished := false;
                    references := refs; tags := []; logs := [] |};
         heap := h; ticks := (or_now start n).2; trace := tr |}.
Proof.
  unfold __init__, or_now.
  destruct (opt_time_truthy start); cbn [fst snd];
    (destruct items as [|kv items]; [reflexivity | apply set_tags_calls]).
Qed.

(** X21: a span constructed with seed tags that do not use the reserved
    key is not finished, has no end time and no logs, starts at the
    explicit start time, or at the clock reading when that is absent or
    zero, and holds the encoder's record of every seed tag in insertion
    order when the context is sampled, and no tag at all when it is
    not. *)
Theorem init_builds_fresh_span (ctx : loc) (tracer : Tracer) (name : string)
    (items : list (string * pyval)) (start : option Z)
    (refs : option (list Reference)) (h : gmap loc SpanContext)
    (n : nat) (tr : list Event) c :
  h !! ctx = Some c ->
  Forall (fun kv => kv.1 <> SAMPLING_PRIORITY) items ->
  exists st',
    __init__ ctx tracer name (Some items) start refs h n tr = (Return (), st')
    /\ tags (self st')
       = (if Z.land (flags c) SAMPLED_FLAG =? SAMPLED_FLAG
          then map (fun kv => make_tag kv.1 kv.2 (max_tag_value_length tracer)
                                (max_traceback_length tracer)) items
          else [])
    /\ logs (self st') = []
    /\ finished (self st') = false
    /\ end_time (self st') = None
    /\ operation_name (self st') = name
    /\ _context (self st') = ctx
    /\ start_time (self st')
       = match start with
         | Some t => if t =? 0 then time_time n else t
         | None => time_time n
         end
    /\ heap st' = h
    /\ trace st' = tr.
Proof.
  intros Hc Hitems. rewrite init_eq.
  match goal with |- context [calls _ ?s0] => set (st0 := s0) end.
  assert (Hstart : start_time (self st0)
                   = match start with
                     | Some t => if t =? 0 then time_time n else t
                     | None => time_time n
                     end).
  { subst st0. cbn [self start_time]. unfold or_now, opt_time_truthy.
    destruct start as [t|]; [destruct (t =? 0)|]; reflexivity. }
  destruct (Z.land (flags c) SAMPLED_FLAG =? SAMPLED_FLAG) eqn:Hs.
  - destruct (calls_plain_sampled (seed_calls items) st0 c Hc Hs
                (seed_calls_plain _ Hitems))
      as (st' & l & Hrun & Hh & Hx & _ & Hf & Hev & Ht & Hl & Hn & Hon
          & Hst & Het).
    rewrite count_log_seed_calls in Hn.
    destruct l; [|discriminate Hn].
    exists st'. split; [exact Hrun|].
    rewrite Ht, Hl, Hf, Het, Hon, Hx, Hst, Hh, Hev, Hstart.
    rewrite tags_of_seed_calls. subst st0. cbn. auto 10.
  - exists st0. split.
    + apply calls_plain_unsampled; [|apply seed_calls_plain, Hitems].
      rewrite (is_sampled_eq st0 c) by exact Hc. rewrite Hs. reflexivity.
    + rewrite Hstart. subst st0. cbn. auto 10.
Qed.

(** X22: seed tags are applied in order, so a sampling priority among
    them works from its position on.  Over a context that is neither
    sampled nor in debug mode, the seed tags before a priority that
    elevates are dropped, the priority tag and the seed tags after it are
    stored, and the constructed span is sampled. *)
Theorem init_seed_priority_takes_effect_in_order
    (ctx : loc) (tracer : Tracer) (name : string)
    (pre post : list (string * pyval)) v (k : Z) (start : option Z)
    (refs : option (list Reference)) (h : gmap loc SpanContext)
    (n : nat) (tr : list Event) c :
  h !! ctx = Some c ->
  (Z.land (flags c) SAMPLED_FLAG =? SAMPLED_FLAG) = false ->
  (Z.land (flags c) DEBUG_FLAG =? DEBUG_FLAG) = false ->
  Forall (fun kv => kv.1 <> SAMPLING_PRIORITY) pre ->
  Forall (fun kv => kv.1 <> SAMPLING_PRIORITY) post ->
  py_int v = IntOk k ->
  k <> 0 ->
  is_debug_allowed tracer name = true ->
  exists st',
    __init__ ctx tracer name (Some (pre ++ (SAMPLING_PRIORITY, v) :: post))
      start refs h n tr = (Return (), st')
    /\ tags (self st')
       = make_tag SAMPLING_PRIORITY v (max_tag_value_length tracer)
           (max_traceback_length tracer)
         :: map (fun kv => make_tag kv.1 kv.2 (max_tag_value_length tracer)
                             (max_traceback_length tracer)) post
    /\ is_sampled st' = (Return true, st').
Proof.
  intros Hc Hs Hd Hpre Hpost Hv Hk Hallow. rewrite init_eq.
  match goal with |- context [calls _ ?s0] => set (st0 := s0) end.
  assert (Hc0 : heap st0 !! _context (self st0) = Some c) by exact Hc.
  unfold seed_calls. rewrite map_app, calls_app. fold (seed_calls pre).
  rewrite (calls_plain_unsampled (seed_calls pre) st0)
    by (first [apply seed_calls_plain, Hpre
              | rewrite (is_sampled_eq st0 c) by exact Hc;
                rewrite Hs; reflexivity]).
  cbn [map fst snd]. fold (seed_calls post). rewrite calls_cons.
  cbn [call].
  rewrite (priority_elevates_eq st0 c v k Hc0 Hd Hv Hk Hallow).
  match goal with |- context [calls _ ?s1] => set (st1 := s1) end.
  set (c1 := set_flags (Z.lor (flags c) (Z.lor SAMPLED_FLAG DEBUG_FLAG)) c).
  assert (Hc1 : heap st1 !! _context (self st1) = Some c1)
    by (subst st1; cbn [self heap append_tag _context];
        apply lookup_insert_eq).
  assert (Hs1 : (Z.land (flags c1) SAMPLED_FLAG =? SAMPLED_FLAG) = true).
  { subst c1. cbn [flags set_flags]. rewrite land_lor_mask.
    apply Z.eqb_refl. }
  destruct (calls_plain_sampled (seed_calls post) st1 c1 Hc1 Hs1
              (seed_calls_plain _ Hpost))
    as (st' & l & Hrun & Hh & Hx & _ & _ & _ & Ht & _).
  exists st'. split; [exact Hrun|]. split.
  - rewrite Ht, tags_of_seed_calls. subst st1 st0. reflexivity.
  - rewrite (is_sampled_eq st' c1) by (rewrite Hh, Hx; exact Hc1).
    rewrite Hs1. reflexivity.
Qed.

(** X23: the constructor raises [TypeError] when a seed tag uses the
    reserved key with a value on which [int()] raises [TypeError] (such
    as [None]), unless the context is in debug mode and the value is
    truthy. *)
Theorem init_raises_on_bad_seed_priority
    (ctx : loc) (tracer : Tracer) (name : string)
    (pre post : list (string * pyval)) v (start : option Z)
    (refs : option (list Reference)) (h : gmap loc SpanContext)
    (n : nat) (tr : list Event) c :
  h !! ctx = Some c ->
  Forall (fun kv => kv.1 <> SAMPLING_PRIORITY) pre ->
  py_int v = IntTypeError ->
  (Z.land (flags c) DEBUG_FLAG =? DEBUG_FLAG) && py_truthy v = false ->
  (__init__ ctx tracer name (Some (pre ++ (SAMPLING_PRIORITY, v) :: post))
     start refs h n tr).1 = Raise TypeError.
Proof.
  intros Hc Hpre Hv Hg. rewrite init_eq.
  match goal with |- context [calls _ ?s0] => set (st0 := s0) end.
  assert (Hc0 : heap st0 !! _context (self st0) = Some c) by exact Hc.
  unfold seed_calls. rewrite map_app, calls_app. fold (seed_calls pre).
  assert (Hrun : exists st1,
             calls (seed_calls pre) st0 = (Return (), st1)
             /\ heap st1 !! _context (self st1) = Some c).
  { destruct (Z.land (flags c) SAMPLED_FLAG =? SAMPLED_FLAG) eqn:Hs.
    - destruct (calls_plain_sampled (seed_calls pre) st0 c Hc0 Hs
                  (seed_calls_plain _ Hpre))
        as (st1 & l & Hrun & Hh & Hx & _).
      exists st1. split; [exact Hrun|]. rewrite Hh, Hx. exact Hc0.
    - exists st0. split; [|exact Hc0].
      apply calls_plain_unsampled; [|apply seed_calls_plain, Hpre].
      rewrite (is_sampled_eq st0 c) by exact Hc. rewrite Hs. reflexivity. }
  destruct Hrun as (st1 & -> & Hc1).
  cbn [map fst snd]. rewrite calls_cons. cbn [call].
  rewrite (type_error_priority st1 c v Hc1 Hv Hg). reflexivity.
Qed.

End SpanFacts.

(** ** The claims on the concrete instance *)

Import Demo.

(** [set_tag] with the reserved key and the value 1 on an unsampled span
    whose tracer allows debug: the elevation returns [True] and the tag is
    stored. *)
Lemma set_tag_priority_one_stores_tag :
  (_set_sampling_priority (PInt 1) (state 0 true)).1 = Return true
  /\ tags (self (state 0 true)) = []
  /\ tags (self (set_tag SAMPLING_PRIORITY (PInt 1) (state 0 true)).2)
     = [("sampling.priority", PInt 1, 1024, 4096)]
  /\ ~ (forall st v,
          tags (self (set_tag SAMPLING_PRIORITY v st).2) = tags (self st)).
Proof.
  repeat split; try reflexivity.
  intros Hall. specialize (Hall (state 0 true) (PInt 1)). discriminate Hall.
Qed.

(** C3 at [None]: [int(None)] raises [TypeError], which the handler for
    [ValueError] does not catch, so [set_tag] raises. *)
Theorem set_tag_priority_none_raises :
  py_int PNone = IntTypeError
  /\ set_tag SAMPLING_PRIORITY PNone (state 1 true)
     = (Raise TypeError, state 1 true)
  /\ set_tag SAMPLING_PRIORITY (PList [PInt 1]) (state 1 true)
     = (Raise TypeError, state 1 true).
Proof. repeat split; reflexivity. Qed.

(** C4 at the string "0" on a debug span: the value parses to zero, yet
    the debug guard returns first, the flags stay 3 and the span stays
    sampled. *)
Theorem set_tag_priority_zero_string_on_debug_span :
  py_int (PStr "0") = IntOk 0
  /\ is_debug (state 3 true) = (Return true, state 3 true)
  /\ set_tag SAMPLING_PRIORITY (PStr "0") (state 3 true)
     = (Return (), state 3 true)
  /\ flags <$> heap (state 3 true) !! 1%positive = Some 3
  /\ is_sampled (state 3 true) = (Return true, state 3 true).
Proof. repeat split; reflexivity. Qed.

(** The integer 0 on the same span does clear both bits. *)
Lemma set_tag_priority_zero_int_on_debug_span :
  flags <$> heap (set_tag SAMPLING_PRIORITY (PInt 0) (state 3 true)).2
              !! 1%positive = Some 0.
Proof. reflexivity. Qed.

(** [set_tag] with the reserved key and the value 0 assigns the flags of
    the context object that is attached to the span: the object at
    location 1 had flags 1 and has flags 0 afterwards. *)
Lemma set_tag_priority_zero_mutates_context :
  _context (self (state 1 true)) = 1%positive
  /\ heap (state 1 true) !! 1%positive = Some (ctx 1)
  /\ _context (self (set_tag SAMPLING_PRIORITY (PInt 0) (state 1 true)).2)
     = 1%positive
  /\ heap (set_tag SAMPLING_PRIORITY (PInt 0) (state 1 true)).2 !! 1%positive
     = Some (ctx 0)
  /\ ~ (forall st cl l c,
          heap st !! l = Some c -> heap (call cl st).2 !! l = Some c).
Proof.
  repeat split; try reflexivity.
  intros Hall.
  specialize (Hall (state 1 true) (CallSetTag SAMPLING_PRIORITY (PInt 0))
                1%positive (ctx 1) eq_refl).
  discriminate Hall.
Qed.

(** A span constructed over an unsampled context drops its seed tags. *)
Lemma init_seed_tags_on_unsampled_context :
  __init__ 1%positive (tracer true) "op"
    (Some [("a", PInt 1); ("b", PStr "x")]) (Some 5) None (store 0) 0 []
  = (Return (), state 0 true)
  /\ tags (self (state 0 true)) = [].
Proof. split; reflexivity. Qed.

(** Three [finish] calls on a sampled span: one report, then warnings. *)
Lemma finish_reports_at_most_once_witness :
  is_Some (heap (state 1 true) !! _context (self (state 1 true)))
  /\ exists st',
       finishes [None; Some 9; None] (state 1 true) = (Return (), st')
       /\ (count_reports (trace st') <= 1)%nat
       /\ finish None (finishes [None; Some 9] (state 1 true)).2
          = (Return (), warned (finishes [None; Some 9] (state 1 true)).2).
Proof.
  assert (Hwf : is_Some (heap (state 1 true) !! _context (self (state 1 true))))
    by (eexists; reflexivity).
  split; [exact Hwf|].
  destruct (finish_reports_at_most_once (state 1 true) [None; Some 9; None] Hwf)
    as (st' & Hrun & Hle & Hlater).
  exists st'. split; [exact Hrun|]. split; [exact Hle|].
  pose proof (fun st1 H1 H2 st2 H3 =>
                proj1 (Hlater [] None [Some 9; None] (state 1 true) st1
                         eq_refl eq_refl H1 H2 [Some 9] None [] st2
                         eq_refl H3)) as Hwarn.
  apply Hwarn with (st1 := (finish None (state 1 true)).2); reflexivity.
Defined.

Lemma contexts_change_only_in_flags_witness :
  heap (state 1 true) !! 1%positive = Some (ctx 1)
  /\ exists c',
       heap (call (CallSetBaggageItem "k" (Some "v")) (state 1 true)).2
         !! 1%positive = Some c'
       /\ baggage c' = baggage (ctx 1).
Proof.
  split; [reflexivity|].
  destruct (contexts_change_only_in_flags (state 1 true)
              (CallSetBaggageItem "k" (Some "v")) 1%positive (ctx 1) eq_refl)
    as (c' & Hl & _ & _ & _ & Hb & _).
  exists c'. split; [exact Hl | exact Hb].
Defined.

Lemma unsampled_span_stores_nothing_witness :
  is_sampled (state 0 true) = (Return false, state 0 true)
  /\ exists st',
       calls [CallSetTag "a" (PInt 1); CallLogKv [("e", PStr "x")] None;
              CallSetTag "b" PNone] (state 0 true) = (Return (), st')
       /\ tags (self st') = [] /\ logs (self st') = [].
Proof.
  split; [reflexivity|].
  apply unsampled_span_stores_nothing; try reflexivity.
  repeat constructor; cbn; discriminate.
Defined.

Lemma finish_unsampled_is_noop_witness :
  is_sampled (state 0 true) = (Return false, state 0 true)
  /\ finish (Some 9) (state 0 true) = (Return (), state 0 true).
Proof.
  split; [reflexivity | apply finish_unsampled_is_noop; reflexivity].
Defined.

Lemma set_baggage_item_twice_witness :
  heap (state 1 true) !! _context (self (state 1 true)) = Some (ctx 1)
  /\ exists st1 st2,
       set_baggage_item "k" (Some "v1") (state 1 true) = (Return (), st1)
       /\ set_baggage_item "k" (Some "v2") st1 = (Return (), st2)
       /\ get_baggage_item "k" st2 = (Return (Some "v2"), st2)
       /\ _context (self st1) <> _context (self (state 1 true))
       /\ _context (self st2) <> _context (self st1).
Proof.
  split; [reflexivity|].
  destruct (set_baggage_item_twice (state 1 true) "k" "v1" "v2" (ctx 1))
    as (st1 & st2 & H1 & H2 & H3 & _ & _ & H4 & H5 & _);
    [reflexivity | discriminate | discriminate |].
  exists st1, st2. auto.
Defined.

Lemma init_seed_tags_on_sampled_context_witness :
  store 1 !! 1%positive = Some (ctx 1)
  /\ Z.land (flags (ctx 1)) SAMPLED_FLAG = SAMPLED_FLAG
  /\ exists st',
       __init__ 1%positive (tracer true) "op"
         (Some [("a", PInt 1); ("b", PStr "x")]) None None (store 1) 0 []
       = (Return (), st')
       /\ tags (self st') = [("a", PInt 1, 1024, 4096);
                             ("b", PStr "x", 1024, 4096)].
Proof.
  split; [reflexivity|]. split; [reflexivity|].
  exact (init_seed_tags_on_sampled_context 1%positive (tracer true) "op"
           None None (store 1) 0 [] (ctx 1) eq_refl eq_refl).
Defined.

Lemma priority_on_debug_span_is_refused_witness :
  is_debug (state 3 true) = (Return true, state 3 true)
  /\ py_int (PStr "1") = IntOk 1
  /\ set_tag SAMPLING_PRIORITY (PStr "1") (state 3 true)
     = (Return (), state 3 true).
Proof.
  split; [reflexivity|]. split; [reflexivity|].
  apply (priority_on_debug_span_is_refused (state 3 true) (PStr "1") 1);
    [reflexivity | reflexivity | discriminate].
Defined.

(** ** The further properties on the concrete instance *)

Lemma finish_sampled_reports_once_witness :
  is_sampled (state 1 true) = (Return true, state 1 true)
  /\ exists st',
       finish (Some 0) (state 1 true) = (Return (), st')
       /\ finished (self st') = true
       /\ end_time (self st') = Some 1700000000
       /\ trace st' = [ReportSpan (self st')].
Proof.
  assert (Hs : is_sampled (state 1 true) = (Return true, state 1 true))
    by reflexivity.
  split; [exact Hs|].
  destruct (finish_sampled_reports_once (state 1 true) (Some 0) Hs eq_refl)
    as (st' & Hrun & Hf & He & Ht & _).
  exists st'. auto.
Defined.

Lemma log_kv_explicit_timestamp_witness :
  is_sampled (state 1 true) = (Return true, state 1 true)
  /\ logs (self (log_kv [("e", PStr "x")] (Some 42) (state 1 true)).2)
     = [(42, [("e", PStr "x")], 1024, 4096)]
  /\ ticks (log_kv [("e", PStr "x")] (Some 42) (state 1 true)).2 = 0%nat.
Proof.
  assert (Hs : is_sampled (state 1 true) = (Return true, state 1 true))
    by reflexivity.
  split; [exact Hs|].
  rewrite (log_kv_explicit_timestamp (state 1 true) [("e", PStr "x")] 42
             Hs ltac:(discriminate)).
  split; reflexivity.
Defined.

Lemma log_kv_clock_timestamp_witness :
  time_time (ticks (state 1 true)) <> 0
  /\ logs (self (log_kv [("e", PStr "x")] (Some 0) (state 1 true)).2)
     = [(1700000000, [("e", PStr "x")], 1024, 4096)].
Proof.
  assert (Hs : is_sampled (state 1 true) = (Return true, state 1 true))
    by reflexivity.
  assert (Hclock : time_time (ticks (state 1 true)) <> 0) by discriminate.
  split; [exact Hclock|].
  rewrite (log_kv_clock_timestamp (state 1 true) [("e", PStr "x")] (Some 0)
             Hs (or_intror eq_refl) Hclock).
  reflexivity.
Defined.

Lemma tags_and_logs_are_append_only_witness :
  is_Some (heap (tagged [("a", PInt 1, 1024, 4096)])
             !! _context (self (tagged [("a", PInt 1, 1024, 4096)])))
  /\ exists sufT,
       tags (self (calls [CallSetTag "b" (PInt 2); CallFinish None;
                          CallSetTag SAMPLING_PRIORITY (PInt 0);
                          CallSetTag "c" (PInt 3)]
                     (tagged [("a", PInt 1, 1024, 4096)])).2)
       = [("a", PInt 1, 1024, 4096)] ++ sufT
       /\ (length sufT <= 4)%nat.
Proof.
  assert (Hwf : is_Some (heap (tagged [("a", PInt 1, 1024, 4096)])
                           !! _context
                                (self (tagged [("a", PInt 1, 1024, 4096)]))))
    by (eexists; reflexivity).
  split; [exact Hwf|].
  destruct (tags_and_logs_are_append_only
              (tagged [("a", PInt 1, 1024, 4096)])
              [CallSetTag "b" (PInt 2); CallFinish None;
               CallSetTag SAMPLING_PRIORITY (PInt 0);
               CallSetTag "c" (PInt 3)] Hwf)
    as (sufT & sufL & Ht & Hlt & _).
  exists sufT. split; [exact Ht | exact Hlt].
Defined.

Lemma finished_is_absorbing_witness :
  finished (self (finish None (state 1 true)).2) = true
  /\ end_time
       (self (calls [CallFinish (Some 9); CallSetOperationName "x";
                     CallSetTag SAMPLING_PRIORITY (PInt 0);
                     CallFinish None]
                (finish None (state 1 true)).2).2)
     = Some 1700000000.
Proof.
  split; [reflexivity|].
  assert (Hwf : is_Some (heap (finish None (state 1 true)).2
                           !! _context (self (finish None (state 1 true)).2)))
    by (eexists; reflexivity).
  assert (Hf : finished (self (finish None (state 1 true)).2) = true)
    by reflexivity.
  destruct (finished_is_absorbing (finish None (state 1 true)).2
              [CallFinish (Some 9); CallSetOperationName "x";
               CallSetTag SAMPLING_PRIORITY (PInt 0); CallFinish None]
              Hwf Hf)
    as (_ & He & _).
  rewrite He. reflexivity.
Defined.

Lemma any_calls_report_at_most_once_witness :
  is_Some (heap (state 1 true) !! _context (self (state 1 true)))
  /\ (count_reports
        (trace (calls [CallFinish None;
                       CallSetTag SAMPLING_PRIORITY (PInt 1%Z);
                       CallFinish None; CallSetBaggageItem "k" (Some "v");
                       CallFinish (Some 3%Z)] (state 1%Z true)).2) <= 1)%nat.
Proof.
  assert (Hwf : is_Some (heap (state 1 true) !! _context (self (state 1 true))))
    by (eexists; reflexivity).
  split; [exact Hwf|].
  exact (any_calls_report_at_most_once (state 1 true)
           [CallFinish None; CallSetTag SAMPLING_PRIORITY (PInt 1);
            CallFinish None; CallSetBaggageItem "k" (Some "v");
            CallFinish (Some 3)] Hwf).
Defined.


Lemma sampled_span_stores_in_call_order_witness :
  is_sampled (state 1 true) = (Return true, state 1 true)
  /\ exists st',
       calls [CallSetTag "a" (PInt 1); CallLogKv [("e", PStr "x")] None;
              CallSetTag "b" (PStr "y")] (state 1 true) = (Return (), st')
       /\ tags (self st') = [("a", PInt 1, 1024, 4096);
                             ("b", PStr "y", 1024, 4096)]
       /\ length (logs (self st')) = 1%nat.
Proof.
  assert (Hs : is_sampled (state 1 true) = (Return true, state 1 true))
    by reflexivity.
  split; [exact Hs|].
  destruct (sampled_span_stores_in_call_order (state 1 true)
              [CallSetTag "a" (PInt 1); CallLogKv [("e", PStr "x")] None;
               CallSetTag "b" (PStr "y")] Hs)
    as (st' & l & Hrun & Ht & Hl & Hn & _);
    [repeat constructor; cbn; discriminate|].
  exists st'. split; [exact Hrun|]. split; [exact Ht|].
  rewrite Hl, length_app, Hn. reflexivity.
Defined.

Lemma priority_elevates_span_witness :
  heap (state 0 true) !! _context (self (state 0 true)) = Some (ctx 0)
  /\ py_int (PStr "1") = IntOk 1
  /\ exists st',
       set_tag SAMPLING_PRIORITY (PStr "1") (state 0 true) = (Return (), st')
       /\ is_sampled st' = (Return true, st')
       /\ is_debug st' = (Return true, st')
       /\ tags (self st') = [("sampling.priority", PStr "1", 1024, 4096)].
Proof.
  assert (Hc : heap (state 0 true) !! _context (self (state 0 true))
               = Some (ctx 0)) by reflexivity.
  assert (Hv : py_int (PStr "1") = IntOk 1) by reflexivity.
  split; [exact Hc|]. split; [exact Hv|].
  destruct (priority_elevates_span (state 0 true) (ctx 0) (PStr "1") 1 Hc)
    as (st' & Hrun & Hs & Hd & _ & _ & Ht & _);
    [reflexivity | exact Hv | discriminate | reflexivity |].
  exists st'. auto.
Defined.

Lemma priority_denied_changes_nothing_witness :
  heap (state 0 false) !! _context (self (state 0 false)) = Some (ctx 0)
  /\ set_tag SAMPLING_PRIORITY (PInt 1) (state 0 false)
     = (Return (), state 0 false).
Proof.
  assert (Hc : heap (state 0 false) !! _context (self (state 0 false))
               = Some (ctx 0)) by reflexivity.
  split; [exact Hc|].
  apply (priority_denied_changes_nothing (state 0 false) (ctx 0) (PInt 1) 1
           Hc); [reflexivity | reflexivity | discriminate | reflexivity].
Defined.

Lemma priority_elevation_is_idempotent_witness :
  heap (state 1 true) !! _context (self (state 1 true)) = Some (ctx 1)
  /\ exists st',
       set_tag SAMPLING_PRIORITY (PInt 1) (state 1 true) = (Return (), st')
       /\ set_tag SAMPLING_PRIORITY (PInt 1) st' = (Return (), st')
       /\ set_tag SAMPLING_PRIORITY (PStr "0") st' = (Return (), st').
Proof.
  assert (Hc : heap (state 1 true) !! _context (self (state 1 true))
               = Some (ctx 1)) by reflexivity.
  split; [exact Hc|].
  destruct (priority_elevation_is_idempotent (state 1 true) (ctx 1) (PInt 1) 1
              Hc)
    as (st' & Hrun & Hagain);
    [reflexivity | reflexivity | discriminate | reflexivity |].
  exists st'. split; [exact Hrun|].
  split; apply Hagain; reflexivity.
Defined.

Lemma elevation_consults_current_name_witness :
  heap (state 0 true) !! _context (self (state 0 true)) = Some (ctx 0)
  /\ elevated
       (_set_sampling_priority (PInt 1)
          (set_operation_name "other" (state 0 true)).2).1
     = true.
Proof.
  assert (Hc : heap (state 0 true) !! _context (self (state 0 true))
               = Some (ctx 0)) by reflexivity.
  split; [exact Hc|].
  rewrite (elevation_consults_current_name (state 0 true) (ctx 0) (PInt 1) 1
             "other" Hc);
    [reflexivity | reflexivity | reflexivity | discriminate].
Defined.

Lemma priority_zero_silences_span_witness :
  heap (state 1 true) !! _context (self (state 1 true)) = Some (ctx 1)
  /\ SAMPLED_FLAG <> 0
  /\ exists st1,
       set_tag SAMPLING_PRIORITY (PStr "0") (state 1 true) = (Return (), st1)
       /\ calls [CallSetTag "a" (PInt 1); CallLogKv [("e", PStr "x")] None] st1
          = (Return (), st1)
       /\ finish None st1 = (Return (), st1).
Proof.
  assert (Hc : heap (state 1 true) !! _context (self (state 1 true))
               = Some (ctx 1)) by reflexivity.
  assert (HS : SAMPLED_FLAG <> 0) by discriminate.
  split; [exact Hc|]. split; [exact HS|].
  destruct (priority_zero_silences_span (state 1 true) (ctx 1) (PStr "0")
              [CallSetTag "a" (PInt 1); CallLogKv [("e", PStr "x")] None]
              None Hc)
    as (st1 & Hrun & _ & Hcalls & Hfin);
    [reflexivity | reflexivity | exact HS
    |repeat constructor; cbn; discriminate |].
  exists st1. auto.
Defined.

Lemma set_baggage_item_on_unsampled_span_witness :
  is_sampled (state 0 true) = (Return false, state 0 true)
  /\ exists st',
       set_baggage_item "k" (Some "v") (state 0 true) = (Return (), st')
       /\ logs (self st') = []
       /\ ticks st' = 0%nat
       /\ is_sampled st' = (Return false, st').
Proof.
  assert (Hs : is_sampled (state 0 true) = (Return false, state 0 true))
    by reflexivity.
  split; [exact Hs|].
  destruct (set_baggage_item_on_unsampled_span (state 0 true) "k" (Some "v") Hs)
    as (st' & Hrun & _ & _ & Hl & _ & Hn & _ & Hs').
  exists st'. auto.
Defined.

Lemma baggage_log_marks_override_witness :
  heap (state 1 true) !! _context (self (state 1 true)) = Some (ctx 1)
  /\ exists st' t,
       set_baggage_item "k" None (state 1 true) = (Return (), st')
       /\ logs (self st')
          = [(t, [("event", PStr "baggage"); ("key", PStr "k");
                  ("value", PNone)], 1024, 4096)].
Proof.
  assert (Hc : heap (state 1 true) !! _context (self (state 1 true))
               = Some (ctx 1)) by reflexivity.
  split; [exact Hc|].
  destruct (baggage_log_marks_override (state 1 true) (ctx 1) "k" None Hc)
    as (st' & t & Hrun & Hl & _); [reflexivity|].
  exists st', t. split; [exact Hrun | exact Hl].
Defined.

Lemma span_identity_is_stable_witness :
  heap (state 1 true) !! _context (self (state 1 true)) = Some (ctx 1)
  /\ (Span_trace_id
        (calls [CallSetBaggageItem "k" (Some "v");
                CallSetTag SAMPLING_PRIORITY (PInt 0);
                CallSetBaggageItem "j" None] (state 1 true)).2).1
     = Return 7
  /\ (Span_span_id
        (calls [CallSetBaggageItem "k" (Some "v");
                CallSetTag SAMPLING_PRIORITY (PInt 0);
                CallSetBaggageItem "j" None] (state 1 true)).2).1
     = Return 8.
Proof.
  assert (Hc : heap (state 1 true) !! _context (self (state 1 true))
               = Some (ctx 1)) by reflexivity.
  split; [exact Hc|].
  destruct (span_identity_is_stable (state 1 true)
              [CallSetBaggageItem "k" (Some "v");
               CallSetTag SAMPLING_PRIORITY (PInt 0);
               CallSetBaggageItem "j" None] (ctx 1) Hc)
    as (H1 & H2 & _).
  split; [exact H1 | exact H2].
Defined.

Lemma rpc_client_is_rpc_witness :
  is_rpc_client (tagged [("span.kind", PStr "client", 1024, 4096)])
  = (Return true, tagged [("span.kind", PStr "client", 1024, 4096)])
  /\ is_rpc (tagged [("span.kind", PStr "client", 1024, 4096)])
     = (Return true, tagged [("span.kind", PStr "client", 1024, 4096)]).
Proof.
  assert (Hc : is_rpc_client (tagged [("span.kind", PStr "client", 1024, 4096)])
               = (Return true,
                  tagged [("span.kind", PStr "client", 1024, 4096)]))
    by reflexivity.
  split; [exact Hc|].
  apply (rpc_client_is_rpc
           (tagged [("span.kind", PStr "client", 1024, 4096)]) Hc).
Defined.

Lemma first_span_kind_tag_decides_witness :
  tags (self (tagged [("a", PInt 1, 1024, 4096);
                      ("span.kind", PStr "server", 1024, 4096);
                      ("span.kind", PStr "client", 1024, 4096)]))
  = [("a", PInt 1, 1024, 4096)]
    ++ ("span.kind", PStr "server", 1024, 4096)
       :: [("span.kind", PStr "client", 1024, 4096)]
  /\ (is_rpc (tagged [("a", PInt 1, 1024, 4096);
                      ("span.kind", PStr "server", 1024, 4096);
                      ("span.kind", PStr "client", 1024, 4096)])).1
     = Return true
  /\ (is_rpc_client (tagged [("a", PInt 1, 1024, 4096);
                             ("span.kind", PStr "server", 1024, 4096);
                             ("span.kind", PStr "client", 1024, 4096)])).1
     = Return false.
Proof.
  split; [reflexivity|].
  destruct (first_span_kind_tag_decides
              (tagged [("a", PInt 1, 1024, 4096);
                       ("span.kind", PStr "server", 1024, 4096);
                       ("span.kind", PStr "client", 1024, 4096)])
              [("a", PInt 1, 1024, 4096)]
              ("span.kind", PStr "server", 1024, 4096)
              [("span.kind", PStr "client", 1024, 4096)])
    as [H1 H2];
    [reflexivity | repeat constructor; cbn; discriminate | reflexivity |].
  rewrite H1, H2. split; reflexivity.
Defined.

Lemma no_span_kind_tag_is_not_rpc_witness :
  Forall (fun x => tag_key x <> SPAN_KIND)
    (tags (self (tagged [("a", PInt 1, 1024, 4096)])))
  /\ is_rpc (tagged [("a", PInt 1, 1024, 4096)])
     = (Return false, tagged [("a", PInt 1, 1024, 4096)]).
Proof.
  assert (Hts : Forall (fun x => tag_key x <> SPAN_KIND)
                  (tags (self (tagged [("a", PInt 1, 1024, 4096)]))))
    by (repeat constructor; cbn; discriminate).
  split; [exact Hts|].
  apply (no_span_kind_tag_is_not_rpc (tagged [("a", PInt 1, 1024, 4096)]) Hts).
Defined.

Lemma rpc_classification_is_stable_witness :
  Exists (fun x => tag_key x = SPAN_KIND)
    (tags (self (tagged [("span.kind", PStr "server", 1024, 4096)])))
  /\ (is_rpc_client
        (calls [CallSetTag SPAN_KIND (PStr "client")]
           (tagged [("span.kind", PStr "server", 1024, 4096)])).2).1
     = Return false.
Proof.
  assert (Hex : Exists (fun x => tag_key x = SPAN_KIND)
                  (tags (self (tagged [("span.kind", PStr "server",
                                        1024, 4096)]))))
    by (constructor; reflexivity).
  assert (Hwf : is_Some (heap (tagged [("span.kind", PStr "server",
                                        1024, 4096)])
                           !! _context
                                (self (tagged [("span.kind", PStr "server",
                                                1024, 4096)]))))
    by (eexists; reflexivity).
  split; [exact Hex|].
  destruct (rpc_classification_is_stable
              (tagged [("span.kind", PStr "server", 1024, 4096)])
              [CallSetTag SPAN_KIND (PStr "client")] Hwf Hex)
    as [_ H2].
  rewrite H2. reflexivity.
Defined.

Lemma init_builds_fresh_span_witness :
  store 0 !! 1%positive = Some (ctx 0)
  /\ exists st',
       __init__ 1%positive (tracer true) "op"
         (Some [("a", PInt 1); ("b", PStr "x")]) (Some 0) None (store 0) 0 []
       = (Return (), st')
       /\ tags (self st') = []
       /\ start_time (self st') = 1700000000
       /\ finished (self st') = false.
Proof.
  assert (Hc : store 0 !! 1%positive = Some (ctx 0)) by reflexivity.
  split; [exact Hc|].
  destruct (init_builds_fresh_span 1%positive (tracer true) "op"
              [("a", PInt 1); ("b", PStr "x")] (Some 0) None (store 0) 0 []
              (ctx 0) Hc)
    as (st' & Hrun & Ht & _ & Hf & _ & _ & _ & Hst & _);
    [repeat constructor; cbn; discriminate|].
  exists st'. auto.
Defined.

Lemma init_seed_priority_takes_effect_in_order_witness :
  store 0 !! 1%positive = Some (ctx 0)
  /\ exists st',
       __init__ 1%positive (tracer true) "op"
         (Some ([("a", PInt 1)]
                ++ (SAMPLING_PRIORITY, PInt 1) :: [("b", PStr "x")]))
         None None (store 0) 0 [] = (Return (), st')
       /\ tags (self st') = [("sampling.priority", PInt 1, 1024, 4096);
                             ("b", PStr "x", 1024, 4096)].
Proof.
  assert (Hc : store 0 !! 1%positive = Some (ctx 0)) by reflexivity.
  split; [exact Hc|].
  destruct (init_seed_priority_takes_effect_in_order 1%positive (tracer true)
              "op" [("a", PInt 1)] [("b", PStr "x")] (PInt 1) 1 None None
              (store 0) 0 [] (ctx 0) Hc)
    as (st' & Hrun & Ht & _);
    [reflexivity | reflexivity
    |repeat constructor; cbn; discriminate
    |repeat constructor; cbn; discriminate
    |reflexivity | discriminate | reflexivity |].
  exists st'. split; [exact Hrun | exact Ht].
Defined.

Lemma init_raises_on_bad_seed_priority_witness :
  store 1 !! 1%positive = Some (ctx 1)
  /\ py_int PNone = IntTypeError
  /\ (__init__ 1%positive (tracer true) "op"
        (Some ([("a", PInt 1)] ++ (SAMPLING_PRIORITY, PNone) :: []))
        None None (store 1) 0 []).1 = Raise TypeError.
Proof.
  assert (Hc : store 1 !! 1%positive = Some (ctx 1)) by reflexivity.
  split; [exact Hc|]. split; [reflexivity|].
  apply (init_raises_on_bad_seed_priority 1%positive (tracer true) "op"
           [("a", PInt 1)] [] PNone None None (store 1) 0 [] (ctx 1) Hc);
    [repeat constructor; cbn; discriminate | reflexivity | reflexivity].
Defined.
